(** * Energy infographic script: data filtering, chart renderers, compositor

    A shallow embedding of [22056555.py].  The script loads a table of energy
    records, restricts it to a list of countries and a year interval, hands
    the result to four chart renderers and finally lays the rendered charts
    and five paragraphs of commentary out on one canvas.

    What is modelled, and how:
    - a pandas [DataFrame] is the list of its rows in storage order, each row
      carrying its index label; a [Series] is the list of one column, aligned
      with the frame by position;
    - boolean-mask selection ([df[mask]]) builds a new frame; the heap model
      further down makes the separation between the argument and the result
      explicit;
    - matplotlib and Pillow are not re-implemented: a figure or a canvas is
      the ordered record of the calls made on it; a library call raises as
      its checks on lengths, shapes and sizes decide, and what the library
      decides from the plotted values in floating-point arithmetic is an
      oracle of the environment;
    - text measurement ([draw.textsize]), line wrapping ([textwrap.fill]) and
      the mode and dimensions of the image files on disk belong to the
      environment and are parameters of the compositor;
    - a run of the script is the list of the calls it makes to its own
      functions, with their arguments, together with its result. *)

From Stdlib Require Import QArith_base.
From stdpp Require Import base list strings gmap.

Local Open Scope Z_scope.

(** ** Exceptions *)

Inductive exn :=
  | IndexError
  | ValueError
  | ZeroDivisionError.

Inductive result (A : Type) :=
  | Ok (a : A)
  | Raise (e : exn).
Arguments Ok {A} a.
Arguments Raise {A} e.

#[global] Instance result_ret : MRet result := λ A a, Ok a.
#[global] Instance result_bind : MBind result := λ A B f m,
  match m with
  | Ok a => f a
  | Raise e => Raise e
  end.

Definition raises {A} (m : result A) : bool :=
  match m with
  | Ok _ => false
  | Raise _ => true
  end.

(** ** Energy records *)

(** A numeric cell of the CSV: a number, or the missing value. *)
Inductive cell :=
  | Num (q : Q)
  | NaN.

(** One row of the table.  [idx] is the pandas index label of the row; the
    columns are the ones the script reads. *)
Record Row := {
  idx : Z;
  country : string;
  year : Z;
  wind_electricity : cell;
  greenhouse_gas_emissions : cell;
  coal_electricity : cell;
  fossil_electricity : cell;
  carbon_intensity_elec : cell;
  gas_electricity : cell;
  nuclear_electricity : cell;
  hydro_electricity : cell;
  solar_electricity : cell;
  biofuel_electricity : cell
}.

Abbreviation Series := list (only parsing).
Abbreviation DataFrame := (list Row) (only parsing).

(** [df[name]]: the column as a series. *)
Definition getcol {A} (col : Row → A) (df : DataFrame) : Series A := map col df.

(** [s.isin(values)] *)
Definition isin (s : Series string) (values : list string) : Series bool :=
  map (λ c, bool_decide (c ∈ values)) s.

(** [s >= k], [s <= k], [s == k] *)
Definition series_ge (s : Series Z) (k : Z) : Series bool := map (λ y, k <=? y) s.
Definition series_le (s : Series Z) (k : Z) : Series bool := map (λ y, y <=? k) s.
Definition series_eqZ (s : Series Z) (k : Z) : Series bool := map (λ y, y =? k) s.
Definition series_eqS (s : Series string) (k : string) : Series bool :=
  map (λ c, bool_decide (c = k)) s.

(** [m1 & m2] *)
Definition mask_and (m1 m2 : Series bool) : Series bool := zip_with andb m1 m2.

(** [df[mask]]: the rows whose mask entry is true, in order, in a new frame.
    Every mask of the script is computed from the frame it selects from, so
    the two always have the same length. *)
Fixpoint getitem_mask (df : DataFrame) (mask : Series bool) : DataFrame :=
  match df, mask with
  | r :: df', b :: mask' =>
      if b then r :: getitem_mask df' mask' else getitem_mask df' mask'
  | _, _ => []
  end.

(** ** filter_data *)

Definition filter_data (df : DataFrame) (selected_countries : list string)
    (start_year end_year : Z) : DataFrame :=
  let df_selected := getitem_mask df (isin (getcol country df) selected_countries) in
  getitem_mask df_selected
    (mask_and (series_ge (getcol year df_selected) start_year)
              (series_le (getcol year df_selected) end_year)).

(** The predicate the two selections of [filter_data] amount to. *)
Definition keeps (selected_countries : list string) (start_year end_year : Z)
    (r : Row) : Prop :=
  country r ∈ selected_countries ∧ start_year ≤ year r ≤ end_year.

#[global] Instance keeps_dec sc s e r : Decision (keeps sc s e r).
Proof. unfold keeps. apply _. Defined.

(** ** Frames on a heap

    Frames are objects: a variable holds a reference, and an operation could
    in principle write through it.  [heap] maps references to frame
    contents, and [filter_data_heap] is [filter_data] over references, each
    selection allocating the frame it returns. *)

Abbreviation ref := nat (only parsing).
Abbreviation heap := (gmap nat DataFrame).

Definition fresh_ref (h : heap) : ref := fresh (dom h).

Definition alloc (rows : DataFrame) (h : heap) : ref * heap :=
  let l := fresh_ref h in (l, <[l := rows]> h).

(** [df[mask_of(df)]] on the heap; [None] for a dangling reference. *)
Definition getitem_mask_heap (df : ref) (mask_of : DataFrame → Series bool)
    (h : heap) : option (ref * heap) :=
  rows ← h !! df;
  Some (alloc (getitem_mask rows (mask_of rows)) h).

Definition filter_data_heap (df : ref) (selected_countries : list string)
    (start_year end_year : Z) (h : heap) : option (ref * heap) :=
  '(df_selected, h1) ← getitem_mask_heap df
      (λ rows, isin (getcol country rows) selected_countries) h;
  getitem_mask_heap df_selected
    (λ rows, mask_and (series_ge (getcol year rows) start_year)
                      (series_le (getcol year rows) end_year)) h1.

(** ** Figures

    A figure is the record of the plotting calls that built it.  Colours
    and the bounding boxes of the percentage labels of the pie chart are
    left out; of [sns.set_palette] the length of the colour cycle it
    installs is kept, since drawing from an empty cycle raises. *)

Inductive Artist :=
  | Line2D (xs : Series Z) (ys : Series cell) (marker label : string)
  | BarContainer (xs : list Q) (heights : Series cell) (width : Q) (label : string)
  | Wedges (sizes : list cell) (labels : list string) (explode : list Q).

Record Figure := {
  artists : list Artist;
  xticks : option (list Q * list string);
  title : string;
  xlabel : string;
  ylabel : string;
  legend_title : option string;
  savefig : string;
  dpi : Z
}.

(** What the script leaves to matplotlib and what depends on the plotted
    values through floating-point arithmetic: whether [ax.pie] accepts the
    wedge sizes (it refuses, among others, missing sizes and sizes that add
    up to nothing), and whether the calls that close a renderer once its
    artists are in place (title, axis labels, ticks, legend and
    [plt.savefig]) manage to finish, draw and write the figure (they do not
    when the plotted values overflow).  Both are an oracle of the
    environment: the exception raised, or [None]. *)
Record Matplotlib := {
  pie_error : list cell → option exn;
  savefig_error : Figure → option exn
}.

(** The closing calls of a renderer, up to [plt.savefig(name, dpi=...)],
    on the figure with its artists. *)
Definition plt_savefig (mpl : Matplotlib) (fig : Figure) : result Figure :=
  match savefig_error mpl fig with
  | Some e => Raise e
  | None => Ok fig
  end.

(** [ax.pie(sizes, labels=..., explode=..., ...)] *)
Definition ax_pie (mpl : Matplotlib) (sizes : list cell) (labels : list string)
    (explode : list Q) : result Artist :=
  match pie_error mpl sizes with
  | Some e => Raise e
  | None => Ok (Wedges sizes labels explode)
  end.

(** [plt.plot(x, y, ...)] raises [ValueError] when the two sequences differ
    in length. *)
Definition plt_plot (xs : Series Z) (ys : Series cell) (marker label : string)
    : result Artist :=
  if decide (length xs = length ys) then Ok (Line2D xs ys marker label)
  else Raise ValueError.

(** Two one-dimensional shapes broadcast when they agree or one of them
    is 1. *)
Definition broadcastable (n m : nat) : bool :=
  (n =? m)%nat || (n =? 1)%nat || (m =? 1)%nat.

(** [plt.bar(x, height, width=..., label=...)] on axes whose colour cycle
    has [n_colors] entries: it first takes the next colour of the cycle,
    which raises [ZeroDivisionError] when the cycle is empty, then
    broadcasts [x] against [height] and raises [ValueError] on a shape
    mismatch. *)
Definition plt_bar (n_colors : nat) (xs : list Q) (heights : Series cell)
    (width : Q) (label : string) : result Artist :=
  if (n_colors =? 0)%nat then Raise ZeroDivisionError
  else if broadcastable (length xs) (length heights)
  then Ok (BarContainer xs heights width label)
  else Raise ValueError.

(** [frame.iloc[0]] raises [IndexError] on an empty frame. *)
Definition iloc0 {A} (rows : list A) : result A :=
  match rows with
  | r :: _ => Ok r
  | [] => Raise IndexError
  end.

(** [range(n)] *)
Definition range (n : nat) : list Z := map Z.of_nat (seq 0 n).

(** *** The two line charts

    A line chart is drawn on the colour cycle in force when it is called;
    the script draws the wind chart on the default cycle and the carbon
    chart after the mix chart has drawn its bars, so on a cycle that is not
    empty. *)

Definition wind_figure (lines : list Artist) : Figure :=
  {| artists := lines;
     xticks := None;
     title := "Electricity Generation from Wind (2012-2022)";
     xlabel := "Year";
     ylabel := "Renewable Energy Consumption (TWh)";
     legend_title := Some "";
     savefig := "Wind_energy_plot.png";
     dpi := 300 |}.

Definition plot_wind_energy_trend (mpl : Matplotlib) (df_selected : DataFrame)
    (selected_countries : list string) : result Figure :=
  lines ← mapM (λ c,
      let df_country := getitem_mask df_selected
                          (series_eqS (getcol country df_selected) c) in
      plt_plot (getcol year df_country) (getcol wind_electricity df_country) "o" c)
    selected_countries;
  plt_savefig mpl (wind_figure lines).

Definition carbon_figure (lines : list Artist) : Figure :=
  {| artists := lines;
     xticks := None;
     title := "Carbon Intensity of Electricity Generation Over Time (2012-2022)";
     xlabel := "Year";
     ylabel := "Carbon Intensity (gCO2/kWh)";
     legend_title := Some "";
     savefig := "carbon_intensity_plot.png";
     dpi := 300 |}.

Definition plot_carbon_intensity (mpl : Matplotlib) (df_selected : DataFrame)
    (selected_countries : list string) : result Figure :=
  lines ← mapM (λ c,
      let df_country := getitem_mask df_selected
                          (series_eqS (getcol country df_selected) c) in
      plt_plot (getcol year df_country) (getcol carbon_intensity_elec df_country) "o" c)
    selected_countries;
  plt_savefig mpl (carbon_figure lines).

(** *** The bar chart *)

Definition bar_width : Q := 2 # 10.

(** The three plotted columns, each with the label the script derives from
    the column name ([replace("_", " ").title()]). *)
Definition energy_types : list (string * (Row → cell)) :=
  [ ("Greenhouse Gas Emissions", greenhouse_gas_emissions);
    ("Coal Electricity", coal_electricity);
    ("Fossil Electricity", fossil_electricity) ].

Definition mix_figure (bars : list Artist) (selected_countries : list string)
    : Figure :=
  {| artists := bars;
     xticks := Some (map (λ j, Qplus (inject_Z j) bar_width)
                         (range (length selected_countries)),
                     selected_countries);
     title := "Green House Gas Emission vs Carbon and fossil electricity production (2022)";
     xlabel := "Country";
     ylabel := "Electricity Generation (TWh)";
     legend_title := Some "Energy Type";
     savefig := "electricity_generation_mix_plot.png";
     dpi := 300 |}.

Definition plot_electricity_generation_mix (mpl : Matplotlib)
    (df_selected : DataFrame) (selected_countries : list string) : result Figure :=
  let df_2018 := getitem_mask df_selected (series_eqZ (getcol year df_selected) 2022) in
  (* sns.set_palette("deep", n_colors=len(df_selected['country'].unique())) *)
  let n_colors := length (remove_dups (getcol country df_selected)) in
  bars ← mapM (λ '(i, (label, col)),
      let x_coordinates :=
        map (λ j, Qplus (inject_Z j) (Qmult (inject_Z (Z.of_nat i)) bar_width))
            (range (length selected_countries)) in
      plt_bar n_colors x_coordinates (getcol col df_2018) bar_width label)
    (imap (λ i e, (i, e)) energy_types);
  plt_savefig mpl (mix_figure bars selected_countries).

(** *** The pie chart *)

(** The selection the pie chart makes from the table it is given. *)
Definition china_data_2018 (df_energy : DataFrame) : DataFrame :=
  getitem_mask df_energy
    (mask_and (series_eqS (getcol country df_energy) "China")
              (series_eqZ (getcol year df_energy) 2022)).

Definition pie_columns (r : Row) : list cell :=
  [ coal_electricity r; gas_electricity r; nuclear_electricity r;
    hydro_electricity r; wind_electricity r; solar_electricity r;
    fossil_electricity r; biofuel_electricity r ].

Definition pie_labels : list string :=
  ["Coal"; "Gas"; "Nuclear"; "Hydro"; "Wind"; "Solar"; "Fossil"; "Bio"].

Definition pie_explode : list Q :=
  [2 # 100; 2 # 100; 2 # 100; 2 # 100; 25 # 100; 2 # 100; 2 # 100; 2 # 100].

Definition pie_chart (wedges : Artist) : Figure :=
  {| artists := [wedges];
     xticks := None;
     title := "China's Electricity Production from Different Sources in 2022";
     xlabel := "";
     ylabel := "";
     legend_title := None;
     savefig := "china_electricity_production_pie.png";
     dpi := 300 |}.

(** The pie chart of the given sizes. *)
Definition pie_figure (sizes : list cell) : Figure :=
  pie_chart (Wedges sizes pie_labels pie_explode).

Definition plot_china_electricity_production_pie (mpl : Matplotlib)
    (df_energy : DataFrame) : result Figure :=
  sizes ← iloc0 (map pie_columns (china_data_2018 df_energy));
  wedges ← ax_pie mpl sizes pie_labels pie_explode;
  plt_savefig mpl (pie_chart wedges).

(** ** The compositor *)

Record Font := { font_path : string; font_size : Z }.

(** [ImageFont.truetype(path, size)] *)
Definition truetype (path : string) (size : Z) : Font :=
  {| font_path := path; font_size := size |}.

(** What the compositor takes from outside the script: the measured
    (width, height) of a text in a font, the line wrapping of a paragraph
    to a width, and the mode and dimensions of an image file on disk. *)
Record Environment := {
  textsize : string → Font → Z * Z;
  textwrap_fill : string → Z → string;
  stored_mode : string → string;
  stored_size : string → Z * Z
}.

(** A shape drawn on a single-channel mask. *)
Inductive MaskShape :=
  | RoundedRectangle (p0 p1 : Z * Z) (radius : Z) (fill : Z).

Record Mask := {
  mask_size : Z * Z;
  mask_color : Z;
  mask_shapes : list MaskShape
}.

(** An image read from disk, by the operations applied to it. *)
Record Img := {
  img_path : string;
  img_mode : string;
  img_size : Z * Z;
  img_alpha : option Mask
}.

Inductive DrawOp :=
  | DrawText (xy : Z * Z) (text : string) (font : Font) (fill : string)
  | DrawRectangle (p0 p1 : Z * Z) (fill : string)
  | DrawMultilineText (xy : Z * Z) (text : string) (font : Font)
      (fill : string) (align : string)
  | Paste (im : Img) (box : Z * Z) (mask : Img).

(** The canvas: its mode, size and background, and what has been drawn or
    pasted on it, oldest first. *)
Record Canvas := {
  cv_mode : string;
  cv_width : Z;
  cv_height : Z;
  cv_color : string;
  cv_ops : list DrawOp
}.

(** [Image.new(mode, (w, h), color)] *)
Definition Image_new (mode : string) (size : Z * Z) (color : string) : Canvas :=
  {| cv_mode := mode; cv_width := size.1; cv_height := size.2;
     cv_color := color; cv_ops := [] |}.

Definition emit (op : DrawOp) (cv : Canvas) : Canvas :=
  {| cv_mode := cv_mode cv; cv_width := cv_width cv; cv_height := cv_height cv;
     cv_color := cv_color cv; cv_ops := cv_ops cv ++ [op] |}.

Record SavedImage := {
  saved_name : string;
  saved_dpi : Z * Z;
  saved_canvas : Canvas
}.

Section Compositor.
Context (env : Environment).

Definition Image_open (path : string) : Img :=
  {| img_path := path; img_mode := stored_mode env path;
     img_size := stored_size env path;
     img_alpha := None |}.

Definition convert (mode : string) (im : Img) : Img :=
  {| img_path := img_path im; img_mode := mode; img_size := img_size im;
     img_alpha := img_alpha im |}.

(** [im.resize(size)] raises [ValueError] unless both dimensions are
    positive. *)
Definition resize (size : Z * Z) (im : Img) : result Img :=
  if decide (0 < size.1 ∧ 0 < size.2)
  then Ok {| img_path := img_path im; img_mode := img_mode im; img_size := size;
             img_alpha := img_alpha im |}
  else Raise ValueError.

Definition putalpha (mask : Mask) (im : Img) : Img :=
  {| img_path := img_path im; img_mode := img_mode im; img_size := img_size im;
     img_alpha := Some mask |}.

Definition paste_with_rounded_corners_and_gap (combined_img : Canvas)
    (image_path : string) (position size : Z * Z) (corner_radius gap : Z)
    : result Canvas :=
  let img := Image_open image_path in
  let img := convert "RGBA" img in
  img ← resize size img;
  let mask := {| mask_size := img_size img; mask_color := 0; mask_shapes := [] |} in
  let mask := {| mask_size := mask_size mask; mask_color := mask_color mask;
                 mask_shapes := mask_shapes mask ++
                   [RoundedRectangle (0, 0) (img_size img) corner_radius 255] |} in
  let img := putalpha mask img in
  Ok (emit (Paste img (position.1, position.2 + gap) img) combined_img).

(** One round of the paragraph loop: the state is the canvas and
    [textbox_position_y]. *)
Definition textbox_step (textbox_width textbox_gap : Z)
    (st : Canvas * Z) (paragraph : string) : Canvas * Z :=
  let '(combined_img, textbox_position_y) := st in
  let font_path := "times.ttf" in
  let textbox_font := truetype font_path 30 in
  let wrapped_text := textwrap_fill env paragraph 41 in
  let wrapped_text_height := (textsize env wrapped_text textbox_font).2 in
  let textbox_position := ((cv_width combined_img - textbox_width) `div` 2,
                           textbox_position_y) in
  let textbox_height := wrapped_text_height + 40 in
  let combined_img :=
    emit (DrawRectangle textbox_position
            (textbox_position.1 + textbox_width,
             textbox_position.2 + textbox_height) "#FFFFFF") combined_img in
  let combined_img :=
    emit (DrawMultilineText (textbox_position.1 + 20, textbox_position.2 + 20)
            wrapped_text textbox_font "#000000" "left") combined_img in
  (combined_img, textbox_position_y + (textbox_height + textbox_gap)).

Definition heading : string :=
  "Global Influence: China and India's Power Impact".

Definition description : string :=
  "This infographic illustrates China's Wind Energy Triumph and Global Electricity Dynamics".

Definition create_combined_image (df_selected : DataFrame)
    (selected_countries : list string) (df_energy : DataFrame)
    (paragraphs : list string) : result SavedImage :=
  let combined_img := Image_new "RGB" (2400, 1500) "#B0C4DE" in

  let heading_font := truetype "arial.ttf" 50 in
  let '(heading_width, heading_height) := textsize env heading heading_font in
  let heading_position := ((cv_width combined_img - heading_width) `div` 2, 30) in
  let combined_img :=
    emit (DrawText heading_position heading heading_font "#333333") combined_img in

  let description_font := truetype "arial.ttf" 30 in
  let '(description_width, description_height) :=
    textsize env description description_font in
  let description_position :=
    ((cv_width combined_img - description_width) `div` 2, heading_height + 50) in
  let combined_img :=
    emit (DrawText description_position description description_font "#555555")
      combined_img in

  let left_space := 50 in
  let right_space := cv_width combined_img - 850 in
  let graph_width := 800 in
  let gap := 20 in

  let wind_energy_position := (left_space, heading_height + 150) in
  combined_img ←
    paste_with_rounded_corners_and_gap combined_img "Wind_energy_plot.png"
      wind_energy_position (graph_width, 600) 40 gap;

  let pie_chart_position := (left_space, heading_height + 150 + 600 + gap) in
  combined_img ←
    paste_with_rounded_corners_and_gap combined_img
      "china_electricity_production_pie.png"
      pie_chart_position (graph_width, 600) 40 gap;

  let carbon_intensity_position := (right_space, heading_height + 150) in
  combined_img ←
    paste_with_rounded_corners_and_gap combined_img "carbon_intensity_plot.png"
      carbon_intensity_position (graph_width, 600) 40 gap;

  let electricity_generation_mix_position :=
    (right_space, heading_height + 150 + 600 + gap) in
  combined_img ←
    paste_with_rounded_corners_and_gap combined_img
      "electricity_generation_mix_plot.png"
      electricity_generation_mix_position (graph_width, 600) 40 gap;

  let textbox_width := 650 in
  let textbox_gap := 20 in
  let textbox_position_y := heading_height + 150 in
  let '(combined_img, _) :=
    fold_left (textbox_step textbox_width textbox_gap) paragraphs
      (combined_img, textbox_position_y) in

  Ok {| saved_name := "22056555.png"; saved_dpi := (300, 300);
        saved_canvas := combined_img |}.

End Compositor.

(** ** Reading a canvas *)

(** The images pasted on a canvas, oldest first: image, upper left corner,
    mask. *)
Definition pastes (cv : Canvas) : list (Img * (Z * Z) * Img) :=
  omap (λ op, match op with
              | Paste im box mask => Some (im, box, mask)
              | _ => None
              end) (cv_ops cv).

(** The filled rectangles drawn on a canvas, oldest first, each as the pair
    of its vertical offset (the y of its upper left corner) and its
    height. *)
Definition textboxes (cv : Canvas) : list (Z * Z) :=
  omap (λ op, match op with
              | DrawRectangle p0 p1 _ => Some (p0.2, p1.2 - p0.2)
              | _ => None
              end) (cv_ops cv).

(** The measured height of the heading, and of a paragraph once wrapped. *)
Definition heading_height (env : Environment) : Z :=
  (textsize env heading (truetype "arial.ttf" 50)).2.

Definition wrapped_text_height (env : Environment) (paragraph : string) : Z :=
  (textsize env (textwrap_fill env paragraph 41) (truetype "times.ttf" 30)).2.

(** Two environments measure a paragraph alike when they wrap it to the
    same text and find the same height for the wrapped text. *)
Definition same_paragraph_metrics (env env' : Environment) (p : string) : Prop :=
  textwrap_fill env p 41 = textwrap_fill env' p 41 ∧
  wrapped_text_height env p = wrapped_text_height env' p.

(** Closed form of the paragraph loop: the (offset, height) pairs of the
    boxes stacked from offset [y] on with gap [g]. *)
Fixpoint stacked (env : Environment) (g y : Z) (ps : list string) : list (Z * Z) :=
  match ps with
  | [] => []
  | p :: ps' =>
      (y, wrapped_text_height env p + 40)
        :: stacked env g (y + (wrapped_text_height env p + 40 + g)) ps'
  end.

(** A chart as the compositor prepares it: converted, resized to 800 by
    600, with an alpha mask that is a filled rounded rectangle of radius 40
    over the whole image. *)
Definition rounded_chart (path : string) : Img :=
  {| img_path := path; img_mode := "RGBA"; img_size := (800, 600);
     img_alpha := Some {| mask_size := (800, 600); mask_color := 0;
                          mask_shapes := [RoundedRectangle (0, 0) (800, 600) 40 255] |} |}.

(** ** Main execution *)

Definition selected_countries : list string :=
  ["Canada"; "India"; "China"; "Japan"; "United Kingdom"].

Definition paragraphs : list string :=
  [ "Wind Leadership (2012-2022): From 2012 to 2022, China emerged as a leader in wind electricity production, a commendable move towards cleaner energy.";
    "Electricity Mix Snapshot (2022): However, in 2022, only 5.5% of China's electricity came from wind, with coal and fossil fuels dominating, as depicted in the Electricity Production Pie graph.";
    "Global Impact Dynamics: The global impact of China and India in electricity generation brings both praise and challenges, as pollution accompanies their significant roles. This insight is discerned from the Green House Gas Emission vs Carbon and fossil electricity production graph.";
    "India-China Dynamics: India outshines China in fossil and coal electricity production, as seen in the Electricity Generation Mix and Carbon Intensity graphs. Meanwhile, China grapples with high greenhouse gas emissions, evident in the Carbon Intensity graph.";
    "Energy Exploration and Competition: We explore wind energy growth, China's energy choices, global challenges, and India-China competition in fossil electricity. These insights, in the graphs, stress the balance for progress and environmental stewardship." ].

Record Outputs := {
  wind_png : Figure;
  mix_png : Figure;
  carbon_png : Figure;
  pie_png : Figure;
  infographic : SavedImage
}.

(** A call the script makes to one of its functions, with the arguments
    it passes. *)
Inductive Call :=
  | Call_plot_wind_energy_trend (df_selected : DataFrame)
      (selected_countries : list string)
  | Call_plot_electricity_generation_mix (df_selected : DataFrame)
      (selected_countries : list string)
  | Call_plot_carbon_intensity (df_selected : DataFrame)
      (selected_countries : list string)
  | Call_plot_china_electricity_production_pie (df_energy : DataFrame)
  | Call_create_combined_image (df_selected : DataFrame)
      (selected_countries : list string) (df_energy : DataFrame)
      (paragraphs : list string).

(** A run of the script: the calls it made, in order, and how it ended. *)
Record Run (A : Type) := {
  calls : list Call;
  outcome : result A
}.
Arguments calls {A} r.
Arguments outcome {A} r.

#[global] Instance run_ret : MRet Run := λ A a, {| calls := []; outcome := Ok a |}.
#[global] Instance run_bind : MBind Run := λ A B f m,
  match outcome m with
  | Ok a => {| calls := calls m ++ calls (f a); outcome := outcome (f a) |}
  | Raise e => {| calls := calls m; outcome := Raise e |}
  end.

Definition call {A} (c : Call) (r : result A) : Run A :=
  {| calls := [c]; outcome := r |}.

Section script.
Context (env : Environment) (mpl : Matplotlib).

Definition run_plot_wind_energy_trend (df_selected : DataFrame)
    (selected_countries : list string) : Run Figure :=
  call (Call_plot_wind_energy_trend df_selected selected_countries)
    (plot_wind_energy_trend mpl df_selected selected_countries).

Definition run_plot_electricity_generation_mix (df_selected : DataFrame)
    (selected_countries : list string) : Run Figure :=
  call (Call_plot_electricity_generation_mix df_selected selected_countries)
    (plot_electricity_generation_mix mpl df_selected selected_countries).

Definition run_plot_carbon_intensity (df_selected : DataFrame)
    (selected_countries : list string) : Run Figure :=
  call (Call_plot_carbon_intensity df_selected selected_countries)
    (plot_carbon_intensity mpl df_selected selected_countries).

Definition run_plot_china_electricity_production_pie (df_energy : DataFrame)
    : Run Figure :=
  call (Call_plot_china_electricity_production_pie df_energy)
    (plot_china_electricity_production_pie mpl df_energy).

Definition run_create_combined_image (df_selected : DataFrame)
    (selected_countries : list string) (df_energy : DataFrame)
    (paragraphs : list string) : Run SavedImage :=
  call (Call_create_combined_image df_selected selected_countries df_energy paragraphs)
    (create_combined_image env df_selected selected_countries df_energy paragraphs).

(** The script from the loaded table on: an exception in a call ends the
    run. *)
Definition main (df_energy : DataFrame) : Run Outputs :=
  let df_selected := filter_data df_energy selected_countries 2012 2022 in
  wind ← run_plot_wind_energy_trend df_selected selected_countries;
  mix ← run_plot_electricity_generation_mix df_selected selected_countries;
  carbon ← run_plot_carbon_intensity df_selected selected_countries;
  pie ← run_plot_china_electricity_production_pie df_energy;
  combined ← run_create_combined_image df_selected selected_countries df_energy
                paragraphs;
  mret {| wind_png := wind; mix_png := mix; carbon_png := carbon; pie_png := pie;
          infographic := combined |}.

End script.

(** ** Sample data

    A small table used to run the definitions: one row for each of the five
    selected countries and each year from 2012 to 2022, followed by three
    rows that the filter of the script rejects. *)

Definition sample_row (c : string) (y : Z) : Row :=
  {| idx := 0; country := c; year := y;
     wind_electricity := Num (inject_Z (y - 2000));
     greenhouse_gas_emissions := Num (inject_Z (y - 1990));
     coal_electricity := Num (60 # 1);
     fossil_electricity := Num (3 # 1);
     carbon_intensity_elec := NaN;
     gas_electricity := Num (5 # 1);
     nuclear_electricity := Num (5 # 1);
     hydro_electricity := Num (15 # 1);
     solar_electricity := Num (5 # 1);
     biofuel_electricity := Num (2 # 1) |}.

Definition with_idx (i : nat) (r : Row) : Row :=
  {| idx := Z.of_nat i; country := country r; year := year r;
     wind_electricity := wind_electricity r;
     greenhouse_gas_emissions := greenhouse_gas_emissions r;
     coal_electricity := coal_electricity r;
     fossil_electricity := fossil_electricity r;
     carbon_intensity_elec := carbon_intensity_elec r;
     gas_electricity := gas_electricity r;
     nuclear_electricity := nuclear_electricity r;
     hydro_electricity := hydro_electricity r;
     solar_electricity := solar_electricity r;
     biofuel_electricity := biofuel_electricity r |}.

Definition sample_table : DataFrame :=
  imap with_idx
    (flat_map (λ c, map (sample_row c) (seqZ 2012 11)) selected_countries
     ++ [sample_row "France" 2015; sample_row "China" 2011; sample_row "India" 2023]).

(** The same table cut off after 2021. *)
Definition sample_table_2021 : DataFrame :=
  filter (λ r, year r ≤ 2021) sample_table.

(** Text metrics of a fixed-pitch face: every character is [size / 2] wide
    and every line [size] high; lines are not wrapped and every image file
    is an RGBA image of 2400 by 1800. *)
Definition sample_env : Environment :=
  {| textsize := λ text font,
       (Z.of_nat (String.length text) * (font_size font `div` 2), font_size font);
     textwrap_fill := λ text width, text;
     stored_mode := λ path, "RGBA";
     stored_size := λ path, (2400, 1800) |}.

(** A sample plotting library: [ax.pie] refuses a missing or negative size
    and sizes that are all zero; [plt.savefig] refuses a figure holding a
    value beyond the range of a double. *)
Definition cell_is_nan (c : cell) : bool :=
  match c with
  | NaN => true
  | Num _ => false
  end.

Definition cell_is_negative (c : cell) : bool :=
  match c with
  | Num q => Qnum q <? 0
  | NaN => false
  end.

Definition cell_is_zero (c : cell) : bool :=
  match c with
  | Num q => Qnum q =? 0
  | NaN => false
  end.

Definition cell_overflows (c : cell) : bool :=
  match c with
  | Num q => 2 ^ 1024 * Z.pos (Qden q) <=? Z.abs (Qnum q)
  | NaN => false
  end.

Definition artist_values (a : Artist) : list cell :=
  match a with
  | Line2D _ ys _ _ => ys
  | BarContainer _ heights _ _ => heights
  | Wedges sizes _ _ => sizes
  end.

Definition sample_matplotlib : Matplotlib :=
  {| pie_error := λ sizes,
       if existsb cell_is_nan sizes || existsb cell_is_negative sizes
          || forallb cell_is_zero sizes
       then Some ValueError else None;
     savefig_error := λ fig,
       if existsb (λ a, existsb cell_overflows (artist_values a)) (artists fig)
       then Some IndexError else None |}.

(** The same metrics with other chart files on disk. *)
Definition sample_env_small_files : Environment :=
  {| textsize := textsize sample_env;
     textwrap_fill := textwrap_fill sample_env;
     stored_mode := λ path, "P";
     stored_size := λ path, (640, 480) |}.

(** ** Further readings of figures and canvases *)

(** The x values of a line, the heights of a group of bars. *)
Definition line_xs (a : Artist) : option (Series Z) :=
  match a with
  | Line2D xs _ _ _ => Some xs
  | _ => None
  end.

Definition bar_heights (a : Artist) : option (Series cell) :=
  match a with
  | BarContainer _ heights _ _ => Some heights
  | _ => None
  end.

(** The lines of a line chart of column [col]: for each listed country, in
    list order, the line labelled with it through the (year, value) pairs of
    that country's rows in table order. *)
Definition country_lines (col : Row → cell) (df : DataFrame) (sc : list string)
    : list Artist :=
  map (λ c, Line2D (getcol year (filter (λ r, country r = c) df))
                   (getcol col (filter (λ r, country r = c) df)) "o" c) sc.

(** The three groups of bars of the mix chart over the rows [df_2022]. *)
Definition energy_bars (df_2022 : DataFrame) (sc : list string) : list Artist :=
  imap (λ i '(label, col),
          BarContainer
            (map (λ j, Qplus (inject_Z j) (Qmult (inject_Z (Z.of_nat i)) bar_width))
                 (range (length sc)))
            (getcol col df_2022) bar_width label) energy_types.

(** The single-line texts, the filled rectangles (by their two corners) and
    the multi-line texts drawn on a canvas, oldest first. *)
Definition op_text (op : DrawOp) : option ((Z * Z) * string) :=
  match op with
  | DrawText xy text _ _ => Some (xy, text)
  | _ => None
  end.

Definition op_rectangle (op : DrawOp) : option ((Z * Z) * (Z * Z)) :=
  match op with
  | DrawRectangle p0 p1 _ => Some (p0, p1)
  | _ => None
  end.

Definition op_multiline_text (op : DrawOp) : option ((Z * Z) * string) :=
  match op with
  | DrawMultilineText xy text _ _ _ => Some (xy, text)
  | _ => None
  end.

Definition texts (cv : Canvas) : list ((Z * Z) * string) :=
  omap op_text (cv_ops cv).

Definition rectangles (cv : Canvas) : list ((Z * Z) * (Z * Z)) :=
  omap op_rectangle (cv_ops cv).

Definition multiline_texts (cv : Canvas) : list ((Z * Z) * string) :=
  omap op_multiline_text (cv_ops cv).

(** The summed wrapped-text heights of a list of paragraphs. *)
Definition total_height (env : Environment) (ps : list string) : Z :=
  foldr (λ p acc, wrapped_text_height env p + acc) 0 ps.

(** Closed form of the drawing done by the paragraph loop on a canvas of
    width [cw], from offset [y] on: per paragraph a white box and the
    wrapped text. *)
Fixpoint textbox_ops (env : Environment) (cw y : Z) (ps : list string)
    : list DrawOp :=
  match ps with
  | [] => []
  | p :: ps' =>
      DrawRectangle ((cw - 650) `div` 2, y)
        ((cw - 650) `div` 2 + 650, y + (wrapped_text_height env p + 40)) "#FFFFFF"
      :: DrawMultilineText ((cw - 650) `div` 2 + 20, y + 20)
           (textwrap_fill env p 41) (truetype "times.ttf" 30) "#000000" "left"
      :: textbox_ops env cw (y + (wrapped_text_height env p + 40 + 20)) ps'
  end.

(** The sample table with its rows in alphabetical order of the countries,
    as a sorted CSV has them. *)
Definition sample_table_sorted : DataFrame :=
  imap with_idx
    (flat_map (λ c, map (sample_row c) (seqZ 2012 11))
       ["Canada"; "China"; "India"; "Japan"; "United Kingdom"]).

(** * Properties *)

(** ** Boolean masks and [filter] *)

Lemma getitem_mask_filter (P : Row → Prop) `{!∀ r, Decision (P r)}
    (p : Row → bool) (df : DataFrame) :
  (∀ r, p r = true ↔ P r) →
  getitem_mask df (map p df) = filter P df.
Proof.
  intros Hp. induction df as [|r df IH]; [done|].
  cbn [map getitem_mask]. rewrite filter_cons, IH.
  destruct (p r) eqn:E, (decide (P r)) as [HP|HP]; try done.
  - apply Hp in E. done.
  - apply Hp in HP. congruence.
Qed.

Lemma mask_and_map {A} (p q : A → bool) (l : list A) :
  mask_and (map p l) (map q l) = map (λ r, p r && q r) l.
Proof. induction l as [|x l IH]; [done|]. cbn. by f_equal. Qed.

Lemma getitem_isin df sc :
  getitem_mask df (isin (getcol country df) sc) = filter (λ r, country r ∈ sc) df.
Proof.
  unfold isin, getcol. rewrite map_map.
  apply getitem_mask_filter. intros r. apply bool_decide_eq_true.
Qed.

Lemma getitem_year_range df s e :
  getitem_mask df (mask_and (series_ge (getcol year df) s)
                            (series_le (getcol year df) e))
  = filter (λ r, s ≤ year r ≤ e) df.
Proof.
  unfold series_ge, series_le, getcol. rewrite !map_map, mask_and_map.
  apply getitem_mask_filter. intros r. cbn. lia.
Qed.

Lemma filter_data_filter df sc s e :
  filter_data df sc s e = filter (keeps sc s e) df.
Proof.
  unfold filter_data. rewrite getitem_isin, getitem_year_range.
  rewrite list_filter_filter. apply list_filter_iff. unfold keeps. tauto.
Qed.

Lemma filter_id {A} (P : A → Prop) `{!∀ x, Decision (P x)} (l : list A) :
  Forall P l → filter P l = l.
Proof.
  induction 1 as [|x l Hx _ IH]; [done|].
  by rewrite filter_cons_True, IH.
Qed.

(** ** Counting rows by key *)

Section counting.
Context {A K : Type} `{!EqDecision K} (key : A → K).

Lemma length_filter_elem_of_cons (x : K) (ks : list K) (l : list A) :
  x ∉ ks →
  length (filter (λ r, key r ∈ x :: ks) l)
  = (length (filter (λ r, key r = x) l) + length (filter (λ r, key r ∈ ks) l))%nat.
Proof.
  intros Hx. induction l as [|r l IH]; [done|].
  rewrite !filter_cons.
  destruct (decide (key r = x)) as [->|Hne].
  - rewrite decide_True by left.
    rewrite (decide_False (P := x ∈ ks)) by done. cbn. lia.
  - destruct (decide (key r ∈ ks)) as [Hin|Hnin].
    + rewrite decide_True by (by right). cbn. lia.
    + rewrite decide_False; [done|]. rewrite elem_of_cons. tauto.
Qed.

Lemma length_filter_by_key (ks : list K) (l : list A) :
  NoDup ks →
  length (filter (λ r, key r ∈ ks) l)
  = sum_list_with (λ x, length (filter (λ r, key r = x) l)) ks.
Proof.
  induction 1 as [|x ks Hx _ IH].
  - cbn. induction l as [|r l IHl]; [done|].
    rewrite filter_cons_False; [done|]. apply not_elem_of_nil.
  - rewrite length_filter_elem_of_cons by done. cbn. by rewrite IH.
Qed.
End counting.

Lemma sum_list_with_const {K} (f : K → nat) (c : nat) (ks : list K) :
  (∀ x, x ∈ ks → f x = c) → sum_list_with f ks = (length ks * c)%nat.
Proof.
  induction ks as [|x ks IH]; intros Hf; [done|].
  cbn. rewrite (Hf x) by left.
  rewrite IH by (intros y Hy; apply Hf; by right). lia.
Qed.

(** With one row per (country, year) over a duplicate-free country list
    and a year interval, the filtered table has one row per pair. *)
Lemma filter_data_length df sc s e :
  NoDup sc →
  (∀ c y, c ∈ sc → s ≤ y ≤ e →
     length (filter (λ r, country r = c ∧ year r = y) df) = 1%nat) →
  length (filter_data df sc s e) = (length sc * Z.to_nat (e - s + 1))%nat.
Proof.
  intros Hsc Hone. rewrite filter_data_filter.
  set (ys := seqZ s (e - s + 1)).
  rewrite (list_filter_iff _ (λ r, country r ∈ sc ∧ year r ∈ ys)).
  2:{ intros r. unfold keeps, ys. rewrite elem_of_seqZ. intuition lia. }
  rewrite <- list_filter_filter, (length_filter_by_key country) by done.
  rewrite (sum_list_with_const _ (Z.to_nat (e - s + 1))); [done|].
  intros c Hc. rewrite list_filter_filter.
  rewrite (list_filter_iff _ (λ r, year r ∈ ys ∧ country r = c)) by tauto.
  rewrite <- list_filter_filter, (length_filter_by_key year) by apply NoDup_seqZ.
  rewrite (sum_list_with_const _ 1%nat).
  - unfold ys. rewrite length_seqZ. lia.
  - intros y Hy. rewrite list_filter_filter.
    rewrite <- (Hone c y); [|done|].
    + f_equal. apply list_filter_iff. tauto.
    + unfold ys in Hy. apply elem_of_seqZ in Hy. lia.
Qed.

(** ** filter_data *)

Lemma fresh_ref_None (h : heap) : h !! fresh_ref h = None.
Proof.
  unfold fresh_ref. apply (not_elem_of_dom (D := gset nat)).
  apply (is_fresh (dom h)).
Qed.

(** C1: a row is in the output of [filter_data] exactly when it is a row of
    the input whose country is among the selected ones and whose year lies
    in the inclusive range: the filter is sound and complete. *)
Theorem filter_data_sound_complete (df : DataFrame) (sc : list string)
    (s e : Z) (r : Row) :
  r ∈ filter_data df sc s e ↔
  r ∈ df ∧ country r ∈ sc ∧ s ≤ year r ≤ e.
Proof.
  rewrite filter_data_filter, list_elem_of_filter. unfold keeps. tauto.
Qed.

(** C6: filtering an already filtered table with the same parameters gives
    the same table, index labels included. *)
Theorem filter_data_idempotent (df : DataFrame) (sc : list string) (s e : Z) :
  filter_data (filter_data df sc s e) sc s e = filter_data df sc s e.
Proof.
  rewrite !filter_data_filter. apply filter_id.
  apply Forall_forall. intros r Hr. by apply list_elem_of_filter in Hr as [? _].
Qed.

(** C5: when the table holds exactly one row for each of the five selected
    countries and each year from 2012 to 2022, whatever else it holds, the
    filter of the script returns exactly 55 rows. *)
Theorem filter_data_55_rows (df : DataFrame) :
  (∀ c y, c ∈ selected_countries → 2012 ≤ y ≤ 2022 →
     length (filter (λ r, country r = c ∧ year r = y) df) = 1%nat) →
  length (filter_data df selected_countries 2012 2022) = 55%nat.
Proof.
  intros Hone. rewrite filter_data_length; [done| |done].
  apply (bool_decide_unpack _). by vm_compute.
Qed.

Lemma filter_data_55_rows_witness :
  length (filter_data sample_table selected_countries 2012 2022) = 55%nat.
Proof.
  apply filter_data_55_rows. intros c y Hc Hy.
  assert (y ∈ seqZ 2012 11) as Hy' by (apply elem_of_seqZ; lia).
  clear Hy. unfold selected_countries in Hc.
  repeat (apply elem_of_cons in Hc as [->|Hc]);
    [| | | | | by apply elem_of_nil in Hc];
    cbn in Hy';
    repeat (apply elem_of_cons in Hy' as [->|Hy']);
    try (by apply elem_of_nil in Hy'); vm_compute; reflexivity.
Defined.

(** C9: [filter_data] leaves the frame it is given, and every other frame
    on the heap, as it was; the frame it returns is new and holds a
    subsequence of the rows of the input, in the input's order. *)
Theorem filter_data_frame (h : heap) (df : ref) (rows : DataFrame)
    (sc : list string) (s e : Z) :
  h !! df = Some rows →
  ∃ out h',
    filter_data_heap df sc s e h = Some (out, h') ∧
    h' !! df = Some rows ∧
    h ⊆ h' ∧
    h !! out = None ∧
    h' !! out = Some (filter_data rows sc s e) ∧
    filter_data rows sc s e `sublist_of` rows.
Proof.
  intros Hdf. unfold filter_data_heap, getitem_mask_heap, alloc.
  rewrite Hdf. cbn.
  set (l1 := fresh_ref h).
  set (d1 := getitem_mask rows _).
  assert (h !! l1 = None) as Hl1 by apply fresh_ref_None.
  rewrite lookup_insert_eq. cbn.
  set (h1 := <[l1 := d1]> h).
  set (l2 := fresh_ref h1).
  assert (h1 !! l2 = None) as Hl2 by apply fresh_ref_None.
  assert (h ⊆ h1) as Hsub1 by (by apply insert_subseteq).
  assert (h1 ⊆ <[l2 := filter_data rows sc s e]> h1) as Hsub2
    by (by apply insert_subseteq).
  eexists l2, _. split; [reflexivity|].
  fold (filter_data rows sc s e).
  split; [|split; [|split; [|split]]].
  - eapply lookup_weaken; [|exact Hsub2]. eapply lookup_weaken; [exact Hdf|exact Hsub1].
  - by etrans.
  - destruct (h !! l2) eqn:E; [|done].
    eapply lookup_weaken in E; [|exact Hsub1]. congruence.
  - apply lookup_insert_eq.
  - rewrite filter_data_filter. apply sublist_filter.
Qed.

Lemma filter_data_frame_witness :
  ∃ out h',
    filter_data_heap 0%nat selected_countries 2012 2022 {[ 0%nat := sample_table ]}
      = Some (out, h') ∧
    h' !! 0%nat = Some sample_table ∧
    ({[ 0%nat := sample_table ]} : heap) ⊆ h' ∧
    ({[ 0%nat := sample_table ]} : heap) !! out = None ∧
    h' !! out = Some (filter_data sample_table selected_countries 2012 2022) ∧
    filter_data sample_table selected_countries 2012 2022 `sublist_of` sample_table.
Proof.
  apply (filter_data_frame {[ 0%nat := sample_table ]} 0%nat sample_table).
  reflexivity.
Defined.

(** ** The compositor *)

Section compositor_facts.
Context (env : Environment).

Lemma textboxes_emit op cv :
  textboxes (emit op cv)
  = textboxes cv ++ match op with
                    | DrawRectangle p0 p1 _ => [(p0.2, p1.2 - p0.2)]
                    | _ => []
                    end.
Proof.
  unfold textboxes, emit. cbn [cv_ops]. rewrite omap_app. f_equal.
  by destruct op.
Qed.

Lemma pastes_emit op cv :
  pastes (emit op cv)
  = pastes cv ++ match op with
                 | Paste im box mask => [(im, box, mask)]
                 | _ => []
                 end.
Proof.
  unfold pastes, emit. cbn [cv_ops]. rewrite omap_app. f_equal.
  by destruct op.
Qed.

(** What one round of the paragraph loop does to the canvas and to the
    running offset. *)
Lemma textbox_step_spec w g cv y p :
  let st := textbox_step env w g (cv, y) p in
  textboxes st.1 = textboxes cv ++ [(y, wrapped_text_height env p + 40)] ∧
  pastes st.1 = pastes cv ∧
  cv_width st.1 = cv_width cv ∧ cv_height st.1 = cv_height cv ∧
  cv_color st.1 = cv_color cv ∧ cv_mode st.1 = cv_mode cv ∧
  st.2 = y + (wrapped_text_height env p + 40 + g).
Proof.
  unfold textbox_step. cbv zeta. cbn [fst snd].
  rewrite !textboxes_emit, !pastes_emit, !app_nil_r. cbn.
  unfold wrapped_text_height, truetype.
  repeat split; try done. do 3 f_equal. lia.
Qed.

Lemma textbox_loop_spec w g ps cv y :
  let st := fold_left (textbox_step env w g) ps (cv, y) in
  textboxes st.1 = textboxes cv ++ stacked env g y ps ∧
  pastes st.1 = pastes cv ∧
  cv_width st.1 = cv_width cv ∧ cv_height st.1 = cv_height cv ∧
  cv_color st.1 = cv_color cv ∧ cv_mode st.1 = cv_mode cv.
Proof.
  revert cv y. induction ps as [|p ps IH]; intros cv y.
  - cbn. by rewrite app_nil_r.
  - cbn [fold_left stacked].
    pose proof (textbox_step_spec w g cv y p) as Hstep. cbv zeta in Hstep.
    destruct (textbox_step env w g (cv, y) p) as [cv1 y1].
    cbn [fst snd] in Hstep. destruct Hstep as (Hb & Hp & Hw & Hh & Hc & Hm & ->).
    specialize (IH cv1 (y + (wrapped_text_height env p + 40 + g))).
    cbv zeta in *. destruct IH as (IHb & IHp & IHw & IHh & IHc & IHm).
    rewrite IHb, IHp, IHw, IHh, IHc, IHm, Hb, Hp, Hw, Hh, Hc, Hm.
    by rewrite <- app_assoc.
Qed.

Lemma stacked_lookup g y ps i p :
  ps !! i = Some p →
  ∃ yi, stacked env g y ps !! i = Some (yi, wrapped_text_height env p + 40) ∧
        (i = 0%nat → yi = y) ∧
        ∀ q, ps !! S i = Some q →
             stacked env g y ps !! S i
             = Some (yi + (wrapped_text_height env p + 40) + g,
                     wrapped_text_height env q + 40).
Proof.
  revert y i. induction ps as [|p0 ps IH]; intros y i Hi; [done|].
  destruct i as [|i].
  - cbn in Hi. injection Hi as ->. exists y. split; [done|]. split; [done|].
    intros q Hq. destruct ps as [|q0 ps]; [done|].
    cbn in Hq. injection Hq as ->. cbn. do 2 f_equal. lia.
  - cbn in Hi. destruct (IH (y + (wrapped_text_height env p0 + 40 + g)) i Hi)
      as (yi & Hyi & _ & Hnext).
    exists yi. split; [exact Hyi|]. split; [done|].
    intros q Hq. exact (Hnext q Hq).
Qed.
End compositor_facts.

Lemma textbox_loop_ops env ps cv y :
  cv_ops (fold_left (textbox_step env 650 20) ps (cv, y)).1
  = cv_ops cv ++ textbox_ops env (cv_width cv) y ps.
Proof.
  revert cv y. induction ps as [|p ps IH]; intros cv y.
  - cbn. by rewrite app_nil_r.
  - cbn [fold_left textbox_ops]. unfold textbox_step at 2. cbv zeta.
    rewrite IH. unfold emit, wrapped_text_height. cbn.
    by rewrite <- !app_assoc.
Qed.

(** A chart of the script's size is always pasted. *)
Lemma paste_chart env cv path position :
  paste_with_rounded_corners_and_gap env cv path position (800, 600) 40 20
  = Ok (emit (Paste (rounded_chart path) (position.1, position.2 + 20)
                (rounded_chart path)) cv).
Proof. reflexivity. Qed.

(** The image written by [create_combined_image]: the call returns, and the
    canvas has the size and colour, the four pastes, the stacked text boxes
    and the drawing operations given here. *)
Lemma create_combined_image_canvas env dfs sc dfe ps :
  ∃ out,
    create_combined_image env dfs sc dfe ps = Ok out ∧
    let cv := saved_canvas out in
    let hw := (textsize env heading (truetype "arial.ttf" 50)).1 in
    let dw := (textsize env description (truetype "arial.ttf" 30)).1 in
    let y0 := heading_height env + 150 in
    cv_width cv = 2400 ∧ cv_height cv = 1500 ∧ cv_color cv = "#B0C4DE" ∧
    cv_mode cv = "RGB" ∧
    pastes cv =
      [ (rounded_chart "Wind_energy_plot.png", (50, y0 + 20),
         rounded_chart "Wind_energy_plot.png");
        (rounded_chart "china_electricity_production_pie.png", (50, y0 + 600 + 20 + 20),
         rounded_chart "china_electricity_production_pie.png");
        (rounded_chart "carbon_intensity_plot.png", (1550, y0 + 20),
         rounded_chart "carbon_intensity_plot.png");
        (rounded_chart "electricity_generation_mix_plot.png", (1550, y0 + 600 + 20 + 20),
         rounded_chart "electricity_generation_mix_plot.png") ] ∧
    textboxes cv = stacked env 20 y0 ps ∧
    cv_ops cv
    = [ DrawText ((2400 - hw) `div` 2, 30) heading (truetype "arial.ttf" 50) "#333333";
        DrawText ((2400 - dw) `div` 2, heading_height env + 50) description
          (truetype "arial.ttf" 30) "#555555";
        Paste (rounded_chart "Wind_energy_plot.png") (50, y0 + 20)
          (rounded_chart "Wind_energy_plot.png");
        Paste (rounded_chart "china_electricity_production_pie.png")
          (50, y0 + 600 + 20 + 20)
          (rounded_chart "china_electricity_production_pie.png");
        Paste (rounded_chart "carbon_intensity_plot.png") (1550, y0 + 20)
          (rounded_chart "carbon_intensity_plot.png");
        Paste (rounded_chart "electricity_generation_mix_plot.png")
          (1550, y0 + 600 + 20 + 20)
          (rounded_chart "electricity_generation_mix_plot.png") ]
      ++ textbox_ops env 2400 y0 ps.
Proof.
  unfold create_combined_image, heading_height.
  destruct (textsize env heading (truetype "arial.ttf" 50)) as [hw hh].
  destruct (textsize env description (truetype "arial.ttf" 30)) as [dw dh].
  cbv zeta. repeat (rewrite paste_chart; cbn [mbind result_bind]). cbn [fst snd].
  match goal with
  | |- context [fold_left ?f ps (?cv0, ?y)] =>
      pose proof (textbox_loop_spec env 650 20 ps cv0 y) as Hloop;
      pose proof (textbox_loop_ops env ps cv0 y) as Hops;
      destruct (fold_left f ps (cv0, y)) as [cv1 y1]
  end.
  cbv zeta in Hloop. cbn [fst] in Hloop, Hops.
  destruct Hloop as (Hb & Hp & Hw & Hh & Hc & Hm).
  eexists. split; [reflexivity|]. cbn [saved_canvas].
  rewrite Hb, Hp, Hw, Hh, Hc, Hm, Hops. done.
Qed.

(** C2: the text box of paragraph [i] has the height of its wrapped text
    plus 40; the first box starts at the heading height plus 150; and the
    box of paragraph [i + 1], when there is one, starts at the offset of box
    [i] plus the height of box [i] plus 20. *)
Theorem textbox_offsets_cumulative (env : Environment) (df_selected : DataFrame)
    (sc : list string) (df_energy : DataFrame) (ps : list string)
    (i : nat) (p : string) :
  ps !! i = Some p →
  ∃ out,
    create_combined_image env df_selected sc df_energy ps = Ok out ∧
    let boxes := textboxes (saved_canvas out) in
    ∃ y_i,
      boxes !! i = Some (y_i, wrapped_text_height env p + 40) ∧
      (i = 0%nat → y_i = heading_height env + 150) ∧
      ∀ q, ps !! S i = Some q →
           boxes !! S i = Some (y_i + (wrapped_text_height env p + 40) + 20,
                                wrapped_text_height env q + 40).
Proof.
  intros Hi.
  destruct (create_combined_image_canvas env df_selected sc df_energy ps)
    as (out & Hout & _ & _ & _ & _ & _ & Hboxes & _).
  exists out. split; [exact Hout|]. cbv zeta. rewrite Hboxes.
  by apply stacked_lookup.
Qed.

Lemma textbox_offsets_cumulative_witness :
  ∃ out,
    create_combined_image sample_env sample_table selected_countries sample_table
      paragraphs = Ok out ∧
    let boxes := textboxes (saved_canvas out) in
    ∃ y_i,
      boxes !! 0%nat = Some (y_i, 30 + 40) ∧
      (0%nat = 0%nat → y_i = 50 + 150) ∧
      ∀ q, paragraphs !! 1%nat = Some q →
           boxes !! 1%nat = Some (y_i + (30 + 40) + 20,
                                  wrapped_text_height sample_env q + 40).
Proof.
  exact (textbox_offsets_cumulative sample_env sample_table selected_countries
           sample_table paragraphs 0%nat _ eq_refl).
Defined.

(** C7: the canvas is 2400 by 1500 with background [#B0C4DE]; exactly four
    images are pasted, each a chart resized to 800 by 600 whose alpha mask is
    a rounded rectangle of radius 40 and which is pasted through that mask;
    the left column is at x = 50 and the right one at x = 1550, and in each
    column the lower chart is 620 below the upper one. *)
Theorem canvas_and_chart_placement (env : Environment) (df_selected : DataFrame)
    (sc : list string) (df_energy : DataFrame) (ps : list string) :
  ∃ out,
    create_combined_image env df_selected sc df_energy ps = Ok out ∧
    let cv := saved_canvas out in
    let top := heading_height env + 170 in
    cv_mode cv = "RGB" ∧ cv_width cv = 2400 ∧ cv_height cv = 1500 ∧
    cv_color cv = "#B0C4DE" ∧
    pastes cv =
      [ (rounded_chart "Wind_energy_plot.png", (50, top),
         rounded_chart "Wind_energy_plot.png");
        (rounded_chart "china_electricity_production_pie.png", (50, top + 620),
         rounded_chart "china_electricity_production_pie.png");
        (rounded_chart "carbon_intensity_plot.png", (1550, top),
         rounded_chart "carbon_intensity_plot.png");
        (rounded_chart "electricity_generation_mix_plot.png", (1550, top + 620),
         rounded_chart "electricity_generation_mix_plot.png") ].
Proof.
  destruct (create_combined_image_canvas env df_selected sc df_energy ps)
    as (out & Hout & Hw & Hh & Hc & Hm & Hp & _).
  exists out. split; [exact Hout|]. cbv zeta. rewrite Hp.
  repeat split; try done.
  replace (heading_height env + 150 + 600 + 20 + 20)
    with (heading_height env + 170 + 620) by lia.
  by replace (heading_height env + 150 + 20) with (heading_height env + 170) by lia.
Qed.

Lemma textbox_step_same_metrics env env' w g st p :
  same_paragraph_metrics env env' p →
  textbox_step env w g st p = textbox_step env' w g st p.
Proof.
  intros [Hwrap Hheight]. unfold wrapped_text_height in Hheight.
  destruct st as [cv y]. unfold textbox_step. cbv zeta.
  by rewrite Hwrap, Hheight in *.
Qed.

Lemma textbox_loop_same_metrics env env' w g ps st :
  Forall (same_paragraph_metrics env env') ps →
  fold_left (textbox_step env w g) ps st = fold_left (textbox_step env' w g) ps st.
Proof.
  intros Hps. revert st. induction Hps as [|p ps Hp _ IH]; intros st; [done|].
  cbn [fold_left]. by rewrite (textbox_step_same_metrics env env'), IH.
Qed.

(** C8: the saved image is determined by the paragraph list and by the
    measurements of the heading, of the sub-heading and of the paragraphs.
    Two runs in which these measurements agree write the same image,
    whatever tables and country lists they are given and whatever the chart
    files on disk look like before they are resized; in particular two runs
    on the same arguments in the same environment do. *)
Theorem create_combined_image_deterministic (env env' : Environment)
    (df_selected df_selected' : DataFrame) (sc sc' : list string)
    (df_energy df_energy' : DataFrame) (ps : list string) :
  textsize env heading (truetype "arial.ttf" 50)
  = textsize env' heading (truetype "arial.ttf" 50) →
  textsize env description (truetype "arial.ttf" 30)
  = textsize env' description (truetype "arial.ttf" 30) →
  Forall (same_paragraph_metrics env env') ps →
  create_combined_image env df_selected sc df_energy ps
  = create_combined_image env' df_selected' sc' df_energy' ps.
Proof.
  intros Hheading Hdescription Hps. unfold create_combined_image.
  rewrite Hheading, Hdescription.
  destruct (textsize env' heading _) as [hw hh].
  destruct (textsize env' description _) as [dw dh].
  cbv zeta. repeat (rewrite paste_chart; cbn [mbind result_bind]).
  by rewrite (textbox_loop_same_metrics env env' _ _ ps).
Qed.

Lemma create_combined_image_deterministic_witness :
  create_combined_image sample_env sample_table selected_countries sample_table
    paragraphs
  = create_combined_image sample_env_small_files sample_table_2021 [] [] paragraphs.
Proof.
  apply create_combined_image_deterministic; [reflexivity|reflexivity|].
  apply (bool_decide_unpack _). vm_compute. exact I.
Defined.

(** C10: a call of [paste_with_rounded_corners_and_gap] that returns has
    appended exactly one paste: the image of the given file, converted to
    RGBA, resized to the given size and masked by a rounded rectangle over
    its whole area, at [(position[0], position[1] + gap)], through itself as
    mask; a call with a size that is not positive raises in [resize] and
    pastes nothing.  In the composite the four charts therefore sit 20 below
    their stated positions, and in each column the top of the lower chart is
    exactly 20 below the bottom (top plus 600) of the upper one. *)
Theorem paste_offset_and_column_gap (env : Environment) (cv cv' : Canvas)
    (path : string) (position size : Z * Z) (corner_radius gap : Z) :
  paste_with_rounded_corners_and_gap env cv path position size corner_radius gap
  = Ok cv' →
  (let img := {| img_path := path; img_mode := "RGBA"; img_size := size;
                 img_alpha :=
                   Some {| mask_size := size; mask_color := 0;
                           mask_shapes :=
                             [RoundedRectangle (0, 0) size corner_radius 255] |} |} in
   cv' = emit (Paste img (position.1, position.2 + gap) img) cv ∧
   cv_ops cv' = cv_ops cv ++ [Paste img (position.1, position.2 + gap) img] ∧
   0 < size.1 ∧ 0 < size.2) ∧
  (∀ cv0 path0 position0 size0 corner_radius0 gap0,
     ¬ (0 < size0.1 ∧ 0 < size0.2) →
     paste_with_rounded_corners_and_gap env cv0 path0 position0 size0
       corner_radius0 gap0 = Raise ValueError) ∧
  (∀ df_selected sc df_energy ps,
     ∃ out wind pie carbon mix y_wind y_pie y_carbon y_mix,
       create_combined_image env df_selected sc df_energy ps = Ok out ∧
       pastes (saved_canvas out)
       = [ (wind, (50, y_wind), wind); (pie, (50, y_pie), pie);
           (carbon, (1550, y_carbon), carbon); (mix, (1550, y_mix), mix) ] ∧
       img_size wind = (800, 600) ∧ img_size pie = (800, 600) ∧
       img_size carbon = (800, 600) ∧ img_size mix = (800, 600) ∧
       y_wind = heading_height env + 150 + 20 ∧
       y_carbon = heading_height env + 150 + 20 ∧
       y_pie = (heading_height env + 150 + 600 + 20) + 20 ∧
       y_mix = (heading_height env + 150 + 600 + 20) + 20 ∧
       y_pie - (y_wind + 600) = 20 ∧
       y_mix - (y_carbon + 600) = 20).
Proof.
  intros Hpaste. split; [|split].
  - unfold paste_with_rounded_corners_and_gap, resize in Hpaste.
    destruct (decide (0 < size.1 ∧ 0 < size.2)) as [Hsize|Hsize]; [|done].
    cbn in Hpaste. injection Hpaste as <-. cbv zeta. done.
  - intros cv0 path0 position0 size0 corner_radius0 gap0 Hsize.
    unfold paste_with_rounded_corners_and_gap, resize.
    by rewrite decide_False.
  - intros df_selected sc df_energy ps.
    destruct (create_combined_image_canvas env df_selected sc df_energy ps)
      as (out & Hout & _ & _ & _ & _ & Hp & _).
    exists out. do 8 eexists. split; [exact Hout|]. split; [exact Hp|].
    cbn. repeat split; lia.
Qed.

Lemma paste_offset_and_column_gap_witness :
  let img := rounded_chart "Wind_energy_plot.png" in
  let cv := Image_new "RGB" (2400, 1500) "#B0C4DE" in
  let cv' := emit (Paste img (50, 200 + 20) img) cv in
  paste_with_rounded_corners_and_gap sample_env cv "Wind_energy_plot.png"
    (50, 200) (800, 600) 40 20 = Ok cv' ∧
  cv' = emit (Paste img (50, 200 + 20) img) cv ∧
  cv_ops cv' = cv_ops cv ++ [Paste img (50, 200 + 20) img] ∧
  0 < 800 ∧ 0 < 600.
Proof.
  split; [reflexivity|].
  exact (proj1 (paste_offset_and_column_gap sample_env
                  (Image_new "RGB" (2400, 1500) "#B0C4DE") _
                  "Wind_energy_plot.png" (50, 200) (800, 600) 40 20 eq_refl)).
Defined.

(** ** The chart renderers *)

Lemma mapM_Ok {A B} (f : A → result B) (g : A → B) (l : list A) :
  (∀ x, f x = Ok (g x)) → mapM f l = Ok (map g l).
Proof.
  intros Hf. induction l as [|x l IH]; [done|].
  cbn. rewrite Hf. cbn. by rewrite IH.
Qed.

(** A line of a line chart is drawn from two columns of one frame, so
    [plt.plot] always gets sequences of equal length. *)
Lemma plt_plot_columns (df : DataFrame) (col : Row → cell) marker label :
  plt_plot (getcol year df) (getcol col df) marker label
  = Ok (Line2D (getcol year df) (getcol col df) marker label).
Proof.
  unfold plt_plot, getcol. rewrite !length_map. by rewrite decide_True.
Qed.

Lemma getitem_country_eq df c :
  getitem_mask df (series_eqS (getcol country df) c)
  = filter (λ r, country r = c) df.
Proof.
  unfold series_eqS, getcol. rewrite map_map. apply getitem_mask_filter.
  intros r. apply bool_decide_eq_true.
Qed.

Lemma line_chart_lines (col : Row → cell) df sc :
  mapM (λ c,
      let df_country := getitem_mask df (series_eqS (getcol country df) c) in
      plt_plot (getcol year df_country) (getcol col df_country) "o" c) sc
  = Ok (country_lines col df sc).
Proof.
  apply mapM_Ok. intros c. cbv zeta. by rewrite plt_plot_columns, getitem_country_eq.
Qed.

(** The plotting calls of a line chart never raise: the renderer ends as
    saving the figure ends. *)
Lemma plot_wind_energy_trend_outcome mpl df sc :
  plot_wind_energy_trend mpl df sc
  = plt_savefig mpl (wind_figure (country_lines wind_electricity df sc)).
Proof. unfold plot_wind_energy_trend. by rewrite line_chart_lines. Qed.

Lemma plot_carbon_intensity_outcome mpl df sc :
  plot_carbon_intensity mpl df sc
  = plt_savefig mpl (carbon_figure (country_lines carbon_intensity_elec df sc)).
Proof. unfold plot_carbon_intensity. by rewrite line_chart_lines. Qed.

Lemma plt_savefig_Ok mpl fig fig' : plt_savefig mpl fig = Ok fig' → fig' = fig.
Proof.
  unfold plt_savefig. destruct (savefig_error mpl fig); [done|]. by intros [= <-].
Qed.

Lemma china_data_2018_filter df :
  china_data_2018 df = filter (λ r, country r = "China" ∧ year r = 2022) df.
Proof.
  unfold china_data_2018, series_eqS, series_eqZ, getcol.
  rewrite !map_map, mask_and_map. apply getitem_mask_filter.
  intros r. cbn. by rewrite andb_true_iff, bool_decide_eq_true, Z.eqb_eq.
Qed.

Lemma getitem_year_eq df y :
  getitem_mask df (series_eqZ (getcol year df) y) = filter (λ r, year r = y) df.
Proof.
  unfold series_eqZ, getcol. rewrite map_map. apply getitem_mask_filter.
  intros r. cbn. lia.
Qed.

Lemma filter_none {A} (P : A → Prop) `{!∀ x, Decision (P x)} (l : list A) :
  (∀ x, x ∈ l → ¬ P x) → filter P l = [].
Proof.
  intros Hl. induction l as [|x l IH]; [done|].
  rewrite filter_cons_False by (apply Hl; by left).
  apply IH. intros y Hy. apply Hl. by right.
Qed.

(** The pie chart is drawn from the first row for China in 2022 of the
    table it is given: [iloc[0]] raises [IndexError] when there is none;
    otherwise the chart is made of that row's eight columns, if [ax.pie] and
    [plt.savefig] go through. *)
Lemma plot_china_electricity_production_pie_spec mpl df :
  plot_china_electricity_production_pie mpl df
  = match filter (λ r, country r = "China" ∧ year r = 2022) df with
    | r :: _ =>
        match pie_error mpl (pie_columns r) with
        | Some e => Raise e
        | None => plt_savefig mpl (pie_figure (pie_columns r))
        end
    | [] => Raise IndexError
    end.
Proof.
  unfold plot_china_electricity_production_pie. rewrite china_data_2018_filter.
  destruct (filter _ df) as [|r rest]; [done|].
  cbn. unfold ax_pie. by destruct (pie_error mpl (pie_columns r)).
Qed.

Lemma plot_china_electricity_production_pie_Ok mpl df fig :
  plot_china_electricity_production_pie mpl df = Ok fig →
  ∃ r rest,
    filter (λ r, country r = "China" ∧ year r = 2022) df = r :: rest ∧
    fig = pie_figure (pie_columns r).
Proof.
  rewrite plot_china_electricity_production_pie_spec.
  destruct (filter _ df) as [|r rest]; [done|].
  destruct (pie_error mpl (pie_columns r)); [done|].
  intros Hfig%plt_savefig_Ok. eauto.
Qed.

(** In the script the difference is not observable in the chart: China is
    a selected country and 2022 lies in the selected range, so the rows the
    pie chart picks from the full table are the ones it would pick from the
    filtered table. *)
Lemma pie_on_filtered_table mpl df :
  plot_china_electricity_production_pie mpl
    (filter_data df selected_countries 2012 2022)
  = plot_china_electricity_production_pie mpl df.
Proof.
  rewrite !plot_china_electricity_production_pie_spec, filter_data_filter.
  rewrite list_filter_filter.
  erewrite list_filter_iff; [reflexivity|].
  intros r. unfold keeps, selected_countries. cbn. split; [tauto|].
  intros [Hc Hy]. repeat split; try done; try lia.
  rewrite Hc. set_solver.
Qed.

(** The colour cycle installed by the mix chart is empty exactly on a table
    without rows. *)
Lemma n_colors_zero (df : DataFrame) :
  (length (remove_dups (getcol country df)) =? 0)%nat = bool_decide (df = []).
Proof.
  destruct df as [|r df]; [done|].
  rewrite bool_decide_eq_false_2 by done.
  apply Nat.eqb_neq. intros Hlen. apply nil_length_inv in Hlen.
  assert (country r ∈ remove_dups (getcol country (r :: df))) as Hin
    by (apply elem_of_remove_dups; left).
  rewrite Hlen in Hin. by apply elem_of_nil in Hin.
Qed.

(** The outcome of the mix chart in closed form: the three [plt.bar] calls
    draw on the same cycle and get the same number of x coordinates and of
    heights, so they pass or fail together. *)
Lemma plot_electricity_generation_mix_outcome mpl df sc :
  let df_2022 := filter (λ r, year r = 2022) df in
  plot_electricity_generation_mix mpl df sc
  = if bool_decide (df = []) then Raise ZeroDivisionError
    else if broadcastable (length sc) (length df_2022)
    then plt_savefig mpl (mix_figure (energy_bars df_2022 sc) sc)
    else Raise ValueError.
Proof.
  cbv zeta. unfold plot_electricity_generation_mix. rewrite getitem_year_eq.
  set (d := filter _ df). unfold energy_types, energy_bars. cbv zeta.
  cbn [imap mapM compose].
  unfold plt_bar, getcol, range. rewrite !length_map, !length_seq, n_colors_zero.
  destruct (bool_decide (df = [])); [done|].
  by destruct (broadcastable (length sc) (length d)).
Qed.

Lemma plot_electricity_generation_mix_Ok mpl df sc fig :
  plot_electricity_generation_mix mpl df sc = Ok fig →
  df ≠ [] ∧
  broadcastable (length sc) (length (filter (λ r, year r = 2022) df)) = true ∧
  fig = mix_figure (energy_bars (filter (λ r, year r = 2022) df) sc) sc.
Proof.
  rewrite plot_electricity_generation_mix_outcome. cbv zeta.
  case_bool_decide as Hdf; [done|].
  destruct (broadcastable _ _); [|done].
  intros Hfig%plt_savefig_Ok. done.
Qed.

(** *** The calls of a run *)

Lemma filter_2022_of_selected df :
  filter (λ r, year r = 2022) (filter_data df selected_countries 2012 2022)
  = filter (λ r, country r ∈ selected_countries ∧ year r = 2022) df.
Proof.
  rewrite filter_data_filter, list_filter_filter. apply list_filter_iff.
  intros r. unfold keeps. intuition lia.
Qed.

(** A run that completes has made its five calls, each renderer has
    returned, and the outputs are what the calls returned. *)
Lemma main_completes env mpl df out :
  outcome (main env mpl df) = Ok out →
  let df_selected := filter_data df selected_countries 2012 2022 in
  calls (main env mpl df)
  = [ Call_plot_wind_energy_trend df_selected selected_countries;
      Call_plot_electricity_generation_mix df_selected selected_countries;
      Call_plot_carbon_intensity df_selected selected_countries;
      Call_plot_china_electricity_production_pie df;
      Call_create_combined_image df_selected selected_countries df paragraphs ] ∧
  plot_wind_energy_trend mpl df_selected selected_countries = Ok (wind_png out) ∧
  plot_electricity_generation_mix mpl df_selected selected_countries
  = Ok (mix_png out) ∧
  plot_carbon_intensity mpl df_selected selected_countries = Ok (carbon_png out) ∧
  plot_china_electricity_production_pie mpl df = Ok (pie_png out) ∧
  create_combined_image env df_selected selected_countries df paragraphs
  = Ok (infographic out).
Proof.
  cbv zeta. unfold main, run_plot_wind_energy_trend,
    run_plot_electricity_generation_mix, run_plot_carbon_intensity,
    run_plot_china_electricity_production_pie, run_create_combined_image, call.
  set (d := filter_data df selected_countries 2012 2022).
  unfold mbind, run_bind. cbn [calls outcome].
  destruct (plot_wind_energy_trend mpl d selected_countries) as [w|]; [|done].
  cbn [calls outcome].
  destruct (plot_electricity_generation_mix mpl d selected_countries) as [m|];
    [|done].
  cbn [calls outcome].
  destruct (plot_carbon_intensity mpl d selected_countries) as [c|]; [|done].
  cbn [calls outcome].
  destruct (plot_china_electricity_production_pie mpl df) as [p|]; [|done].
  cbn [calls outcome].
  destruct (create_combined_image env d selected_countries df paragraphs) as [i|];
    [|done].
  cbn. intros [= <-]. done.
Qed.

(** The calls of any run, complete or not, are the first calls of the
    script, in order. *)
Lemma main_calls_prefix env mpl df :
  let df_selected := filter_data df selected_countries 2012 2022 in
  calls (main env mpl df)
  `prefix_of`
    [ Call_plot_wind_energy_trend df_selected selected_countries;
      Call_plot_electricity_generation_mix df_selected selected_countries;
      Call_plot_carbon_intensity df_selected selected_countries;
      Call_plot_china_electricity_production_pie df;
      Call_create_combined_image df_selected selected_countries df paragraphs ].
Proof.
  cbv zeta. unfold main, run_plot_wind_energy_trend,
    run_plot_electricity_generation_mix, run_plot_carbon_intensity,
    run_plot_china_electricity_production_pie, run_create_combined_image, call.
  set (d := filter_data df selected_countries 2012 2022).
  unfold mbind, run_bind. cbn [calls outcome].
  destruct (plot_wind_energy_trend mpl d selected_countries) as [w|];
    cbn [calls outcome app]; [|by eexists].
  destruct (plot_electricity_generation_mix mpl d selected_countries) as [m|];
    cbn [calls outcome app]; [|by eexists].
  destruct (plot_carbon_intensity mpl d selected_countries) as [c|];
    cbn [calls outcome app]; [|by eexists].
  destruct (plot_china_electricity_production_pie mpl df) as [p|];
    cbn [calls outcome app]; [|by eexists].
  destruct (create_combined_image env d selected_countries df paragraphs) as [i|];
    cbn [calls outcome app]; by eexists.
Qed.

(** C3: in a run of the script the pie renderer is called with the full
    table and the three other renderers with the filtered table, whether the
    run completes or not; in a run that completes, the pie chart shows the
    first row for China in 2022 of the full table, and the wind, carbon and
    mix charts show the rows of the filtered table: one line per selected
    country, and the bars of its rows for 2022. *)
Theorem pie_reads_full_table (env : Environment) (mpl : Matplotlib)
    (df_energy : DataFrame) (out : Outputs) :
  outcome (main env mpl df_energy) = Ok out →
  let df_selected := filter_data df_energy selected_countries 2012 2022 in
  let all_calls :=
    [ Call_plot_wind_energy_trend df_selected selected_countries;
      Call_plot_electricity_generation_mix df_selected selected_countries;
      Call_plot_carbon_intensity df_selected selected_countries;
      Call_plot_china_electricity_production_pie df_energy;
      Call_create_combined_image df_selected selected_countries df_energy
        paragraphs ] in
  calls (main env mpl df_energy) = all_calls ∧
  (∀ df, calls (main env mpl df)
         `prefix_of`
           [ Call_plot_wind_energy_trend
               (filter_data df selected_countries 2012 2022) selected_countries;
             Call_plot_electricity_generation_mix
               (filter_data df selected_countries 2012 2022) selected_countries;
             Call_plot_carbon_intensity
               (filter_data df selected_countries 2012 2022) selected_countries;
             Call_plot_china_electricity_production_pie df;
             Call_create_combined_image
               (filter_data df selected_countries 2012 2022) selected_countries
               df paragraphs ]) ∧
  (∃ r rest,
     filter (λ r, country r = "China" ∧ year r = 2022) df_energy = r :: rest ∧
     pie_png out = pie_figure (pie_columns r)) ∧
  wind_png out
  = wind_figure (country_lines wind_electricity df_selected selected_countries) ∧
  carbon_png out
  = carbon_figure (country_lines carbon_intensity_elec df_selected
                     selected_countries) ∧
  mix_png out
  = mix_figure (energy_bars (filter (λ r, year r = 2022) df_selected)
                  selected_countries) selected_countries.
Proof.
  intros Hmain. cbv zeta.
  destruct (main_completes env mpl df_energy out Hmain)
    as (Hcalls & Hwind & Hmix & Hcarbon & Hpie & _).
  split; [exact Hcalls|]. split; [intros df; apply main_calls_prefix|].
  split; [by eapply plot_china_electricity_production_pie_Ok|].
  rewrite plot_wind_energy_trend_outcome in Hwind.
  rewrite plot_carbon_intensity_outcome in Hcarbon.
  apply plt_savefig_Ok in Hwind, Hcarbon.
  apply plot_electricity_generation_mix_Ok in Hmix as (_ & _ & Hmix).
  done.
Qed.

Lemma pie_reads_full_table_witness :
  ∃ out,
    outcome (main sample_env sample_matplotlib sample_table) = Ok out ∧
    calls (main sample_env sample_matplotlib sample_table)
    = [ Call_plot_wind_energy_trend
          (filter_data sample_table selected_countries 2012 2022) selected_countries;
        Call_plot_electricity_generation_mix
          (filter_data sample_table selected_countries 2012 2022) selected_countries;
        Call_plot_carbon_intensity
          (filter_data sample_table selected_countries 2012 2022) selected_countries;
        Call_plot_china_electricity_production_pie sample_table;
        Call_create_combined_image
          (filter_data sample_table selected_countries 2012 2022) selected_countries
          sample_table paragraphs ] ∧
    ∃ r rest,
      filter (λ r, country r = "China" ∧ year r = 2022) sample_table = r :: rest ∧
      pie_png out = pie_figure (pie_columns r).
Proof.
  eexists. split; [vm_compute; reflexivity|].
  match goal with
  | |- context [pie_png ?o] =>
      destruct (pie_reads_full_table sample_env sample_matplotlib sample_table o)
        as (Hcalls & _ & Hpie & _); [vm_compute; reflexivity|]
  end.
  split; [exact Hcalls|exact Hpie].
Defined.

(** The claim of C4 fails for the line charts: on the sample table cut off
    after 2021 no row is for 2022, and both line-chart renderers finish
    without raising. *)
Lemma line_charts_without_2022 :
  Forall (λ r, year r ≠ 2022) sample_table_2021 ∧
  raises (plot_wind_energy_trend sample_matplotlib sample_table_2021
            selected_countries) = false ∧
  raises (plot_carbon_intensity sample_matplotlib sample_table_2021
            selected_countries) = false.
Proof.
  split; [apply (bool_decide_unpack _); by vm_compute|].
  split; vm_compute; reflexivity.
Qed.

(** C4, amended: on a table with no row for 2022 the pie renderer raises
    [IndexError] when selecting the first matching row, and the mix
    renderer, drawing at least two countries as in the script, raises in
    its first [plt.bar] call ([ZeroDivisionError] on a table without rows,
    [ValueError] otherwise); the two line-chart renderers do not select on
    the year: nothing in them raises before the figure is saved. *)
Theorem renderers_without_2022 (mpl : Matplotlib) (df : DataFrame)
    (sc : list string) :
  (∀ r, r ∈ df → year r ≠ 2022) → (2 ≤ length sc)%nat →
  plot_china_electricity_production_pie mpl df = Raise IndexError ∧
  plot_electricity_generation_mix mpl df sc
  = Raise (if bool_decide (df = []) then ZeroDivisionError else ValueError) ∧
  plot_wind_energy_trend mpl df sc
  = plt_savefig mpl (wind_figure (country_lines wind_electricity df sc)) ∧
  plot_carbon_intensity mpl df sc
  = plt_savefig mpl (carbon_figure (country_lines carbon_intensity_elec df sc)).
Proof.
  intros Hno Hsc. split; [|split; [|split]].
  - rewrite plot_china_electricity_production_pie_spec, filter_none; [done|].
    intros r Hr [_ Hy]. by apply (Hno r).
  - rewrite plot_electricity_generation_mix_outcome. cbv zeta.
    rewrite filter_none by done.
    destruct (bool_decide (df = [])); [done|].
    destruct sc as [|a [|b sc]]; cbn in *; [lia|lia|done].
  - apply plot_wind_energy_trend_outcome.
  - apply plot_carbon_intensity_outcome.
Qed.

Lemma renderers_without_2022_witness :
  plot_china_electricity_production_pie sample_matplotlib sample_table_2021
  = Raise IndexError ∧
  plot_electricity_generation_mix sample_matplotlib sample_table_2021
    selected_countries = Raise ValueError ∧
  plot_wind_energy_trend sample_matplotlib sample_table_2021 selected_countries
  = plt_savefig sample_matplotlib
      (wind_figure (country_lines wind_electricity sample_table_2021
                      selected_countries)) ∧
  plot_carbon_intensity sample_matplotlib sample_table_2021 selected_countries
  = plt_savefig sample_matplotlib
      (carbon_figure (country_lines carbon_intensity_elec sample_table_2021
                        selected_countries)).
Proof.
  apply (renderers_without_2022 sample_matplotlib sample_table_2021
           selected_countries).
  - apply Forall_forall. apply (bool_decide_unpack _). vm_compute. exact I.
  - cbn. lia.
Defined.

(** * Further properties *)

(** ** filter_data: composition and edge cases *)

(** X1: two filters in a row are one filter: the countries selected by both
    lists and the intersection of the two year ranges; so the order of two
    filters does not matter. *)
Theorem filter_data_compose (df : DataFrame) (sc1 sc2 : list string)
    (s1 e1 s2 e2 : Z) :
  filter_data (filter_data df sc1 s1 e1) sc2 s2 e2
  = filter_data df (filter (λ c, c ∈ sc2) sc1) (s1 `max` s2) (e1 `min` e2) ∧
  filter_data (filter_data df sc1 s1 e1) sc2 s2 e2
  = filter_data (filter_data df sc2 s2 e2) sc1 s1 e1.
Proof.
  rewrite !filter_data_filter, !list_filter_filter. split.
  - apply list_filter_iff. intros r. unfold keeps.
    rewrite list_elem_of_filter. intuition lia.
  - apply list_filter_iff. intros r. tauto.
Qed.

(** X2: with an empty country list, or with a start year after the end
    year, the result is the empty table, whatever the input. *)
Theorem filter_data_empty (df : DataFrame) (sc : list string) (s e : Z) :
  sc = [] ∨ e < s → filter_data df sc s e = [].
Proof.
  intros Hempty. rewrite filter_data_filter. apply filter_none.
  intros r _ [Hc Hy]. destruct Hempty as [-> | Hlt]; [|lia].
  by apply not_elem_of_nil in Hc.
Qed.

Lemma filter_data_empty_witness :
  filter_data sample_table selected_countries 2022 2012 = [].
Proof.
  apply filter_data_empty. right. lia.
Defined.

(** X3: the country list is used as a set: two lists with the same members,
    in any order and with any repetitions, select the same rows. *)
Theorem filter_data_countries_as_set (df : DataFrame) (sc sc' : list string)
    (s e : Z) :
  (∀ c, c ∈ sc ↔ c ∈ sc') → filter_data df sc s e = filter_data df sc' s e.
Proof.
  intros Hsame. rewrite !filter_data_filter. apply list_filter_iff.
  intros r. unfold keeps. by rewrite Hsame.
Qed.

Lemma filter_data_countries_as_set_witness :
  filter_data sample_table ["India"; "China"] 2012 2022
  = filter_data sample_table ["China"; "India"; "China"] 2012 2022.
Proof.
  apply filter_data_countries_as_set. intros c.
  rewrite !elem_of_cons. pose proof (not_elem_of_nil c). tauto.
Defined.

(** X4: the filter keeps index labels unique: when no two rows of the input
    share a label, no two rows of the output do. *)
Theorem filter_data_unique_index (df : DataFrame) (sc : list string) (s e : Z) :
  NoDup (getcol idx df) → NoDup (getcol idx (filter_data df sc s e)).
Proof.
  unfold getcol. intros Hdf. eapply sublist_NoDup; [exact Hdf|].
  apply (fmap_sublist idx). rewrite filter_data_filter. apply sublist_filter.
Qed.

Lemma filter_data_unique_index_witness :
  NoDup (getcol idx (filter_data sample_table selected_countries 2012 2022)).
Proof.
  apply filter_data_unique_index. apply (bool_decide_unpack _). vm_compute. exact I.
Defined.

(** ** The line charts *)

(** X5: nothing in a line-chart renderer raises before the figure is
    saved, and the figure it saves has one line per entry of the country
    list, in list order (a country listed twice is drawn twice): the line of
    a country is labelled with it and runs through the (year, value) pairs
    of that country's rows in table order; a country without rows gets an
    empty line.  So the renderer returns this figure, or raises what saving
    it raises. *)
Theorem line_charts_one_line_per_country (mpl : Matplotlib) (df : DataFrame)
    (sc : list string) :
  plot_wind_energy_trend mpl df sc
  = plt_savefig mpl (wind_figure (country_lines wind_electricity df sc)) ∧
  plot_carbon_intensity mpl df sc
  = plt_savefig mpl (carbon_figure (country_lines carbon_intensity_elec df sc)) ∧
  length (country_lines wind_electricity df sc) = length sc ∧
  ∀ col, country_lines col df sc
         = map (λ c, Line2D (getcol year (filter (λ r, country r = c) df))
                            (getcol col (filter (λ r, country r = c) df))
                            "o" c) sc.
Proof.
  split; [apply plot_wind_energy_trend_outcome|].
  split; [apply plot_carbon_intensity_outcome|].
  split; [apply length_map|done].
Qed.

(** X6: rows of countries that are not in the list never reach a line
    chart: two tables with the same rows for the listed countries give the
    same two charts. *)
Theorem line_charts_ignore_other_countries (mpl : Matplotlib)
    (df df' : DataFrame) (sc : list string) :
  filter (λ r, country r ∈ sc) df = filter (λ r, country r ∈ sc) df' →
  plot_wind_energy_trend mpl df sc = plot_wind_energy_trend mpl df' sc ∧
  plot_carbon_intensity mpl df sc = plot_carbon_intensity mpl df' sc.
Proof.
  intros Hsame.
  assert (∀ c, c ∈ sc →
            filter (λ r, country r = c) df = filter (λ r, country r = c) df') as Hc.
  { intros c Hin.
    rewrite <- (list_filter_filter_l (λ r, country r = c) (λ r, country r ∈ sc) df)
      by (by intros r ->).
    rewrite <- (list_filter_filter_l (λ r, country r = c) (λ r, country r ∈ sc) df')
      by (by intros r ->).
    by rewrite Hsame. }
  assert (∀ col : Row → cell, country_lines col df sc = country_lines col df' sc)
    as Hlines.
  { intros col. apply map_ext_in. intros c Hin.
    apply list_elem_of_In in Hin. by rewrite (Hc c Hin). }
  by rewrite !plot_wind_energy_trend_outcome, !plot_carbon_intensity_outcome,
    !Hlines.
Qed.

Lemma line_charts_ignore_other_countries_witness :
  plot_wind_energy_trend sample_matplotlib sample_table selected_countries
  = plot_wind_energy_trend sample_matplotlib
      (filter (λ r, country r ≠ "France") sample_table) selected_countries ∧
  plot_carbon_intensity sample_matplotlib sample_table selected_countries
  = plot_carbon_intensity sample_matplotlib
      (filter (λ r, country r ≠ "France") sample_table) selected_countries.
Proof.
  apply line_charts_ignore_other_countries. vm_compute. reflexivity.
Defined.

(** X7: when a wind chart is produced from a filtered table, for the
    countries of the filter, it shows nothing outside the year range: every
    artist is a line labelled with a listed country, with as many x as y
    values, and all its x values lie between the start and the end year. *)
Theorem line_chart_of_filtered_table_in_range (mpl : Matplotlib) (df : DataFrame)
    (sc : list string) (s e : Z) (wind : Figure) :
  plot_wind_energy_trend mpl (filter_data df sc s e) sc = Ok wind →
  Forall (λ a, match a with
               | Line2D xs ys _ label =>
                   label ∈ sc ∧ length xs = length ys ∧
                   Forall (λ x, s ≤ x ≤ e) xs
               | _ => False
               end) (artists wind).
Proof.
  rewrite plot_wind_energy_trend_outcome. intros ->%plt_savefig_Ok.
  cbn [artists wind_figure]. unfold country_lines.
  apply Forall_forall. intros a Ha. apply list_elem_of_fmap in Ha as (c & -> & Hc).
  split; [done|]. unfold getcol. split; [by rewrite !length_map|].
  apply Forall_forall. intros x Hx. apply list_elem_of_fmap in Hx as (r & -> & Hr).
  apply list_elem_of_filter in Hr as [_ Hr].
  rewrite filter_data_filter in Hr. apply list_elem_of_filter in Hr as [[_ Hy] _].
  exact Hy.
Qed.

Lemma line_chart_of_filtered_table_in_range_witness :
  ∃ wind,
    plot_wind_energy_trend sample_matplotlib
      (filter_data sample_table ["China"; "India"] 2015 2020) ["China"; "India"]
    = Ok wind ∧
    Forall (λ a, match a with
                 | Line2D xs ys _ label =>
                     label ∈ ["China"; "India"] ∧ length xs = length ys ∧
                     Forall (λ x, 2015 ≤ x ≤ 2020) xs
                 | _ => False
                 end) (artists wind).
Proof.
  eexists. split; [vm_compute; reflexivity|].
  apply (line_chart_of_filtered_table_in_range sample_matplotlib sample_table
           ["China"; "India"] 2015 2020).
  vm_compute. reflexivity.
Defined.

(** ** The bar chart *)

(** X8: the mix chart raises [ZeroDivisionError] on a table without rows
    (its colour cycle is then empty) and [ValueError] on any other table
    whose number of rows for 2022 does not broadcast with the number of
    countries to draw, that is, when they differ and neither is 1; in every
    other case all bars are drawn and the renderer ends as saving the figure
    ends. *)
Theorem plot_electricity_generation_mix_raises (mpl : Matplotlib)
    (df : DataFrame) (sc : list string) :
  plot_electricity_generation_mix mpl df sc
  = if bool_decide (df = []) then Raise ZeroDivisionError
    else if broadcastable (length sc) (length (filter (λ r, year r = 2022) df))
    then plt_savefig mpl
           (mix_figure (energy_bars (filter (λ r, year r = 2022) df) sc) sc)
    else Raise ValueError.
Proof. apply plot_electricity_generation_mix_outcome. Qed.

(** X9: when the mix chart is produced, it has three groups of bars whose
    heights are the greenhouse-gas, coal and fossil columns of the rows for
    2022 in table order, while the tick labels are the country list in list
    order: the i-th bar carries the i-th row's value under the i-th listed
    name, whichever country that row belongs to. *)
Theorem plot_electricity_generation_mix_bars (mpl : Matplotlib) (df : DataFrame)
    (sc : list string) (fig : Figure) :
  plot_electricity_generation_mix mpl df sc = Ok fig →
  let df_2022 := filter (λ r, year r = 2022) df in
  snd <$> xticks fig = Some sc ∧
  bar_heights <$> artists fig
  = [ Some (getcol greenhouse_gas_emissions df_2022);
      Some (getcol coal_electricity df_2022);
      Some (getcol fossil_electricity df_2022) ].
Proof.
  intros (_ & _ & ->)%plot_electricity_generation_mix_Ok. done.
Qed.

Lemma plot_electricity_generation_mix_bars_witness :
  ∃ fig,
    plot_electricity_generation_mix sample_matplotlib sample_table_sorted
      selected_countries = Ok fig ∧
    let df_2022 := filter (λ r, year r = 2022) sample_table_sorted in
    snd <$> xticks fig = Some selected_countries ∧
    bar_heights <$> artists fig
    = [ Some (getcol greenhouse_gas_emissions df_2022);
        Some (getcol coal_electricity df_2022);
        Some (getcol fossil_electricity df_2022) ].
Proof.
  eexists. split; [vm_compute; reflexivity|].
  apply (plot_electricity_generation_mix_bars sample_matplotlib sample_table_sorted
           selected_countries).
  vm_compute. reflexivity.
Defined.

(** On a table sorted by country the second bar of each group is China's
    and the third India's, under the tick labels India and China. *)
Lemma mix_chart_labels_on_sorted_table :
  getcol country (filter (λ r, year r = 2022) sample_table_sorted)
  = ["Canada"; "China"; "India"; "Japan"; "United Kingdom"] ∧
  ∃ fig,
    plot_electricity_generation_mix sample_matplotlib sample_table_sorted
      selected_countries = Ok fig ∧
    snd <$> xticks fig = Some ["Canada"; "India"; "China"; "Japan"; "United Kingdom"].
Proof.
  split; [vm_compute; reflexivity|].
  eexists. split; vm_compute; reflexivity.
Qed.

(** ** The pie chart *)

(** X10: on a table with no row for China in 2022 the pie renderer raises
    [IndexError], before [ax.pie] is reached. *)
Theorem plot_china_electricity_production_pie_raises (mpl : Matplotlib)
    (df : DataFrame) :
  Forall (λ r, ¬ (country r = "China" ∧ year r = 2022)) df →
  plot_china_electricity_production_pie mpl df = Raise IndexError.
Proof.
  intros Hnone. rewrite plot_china_electricity_production_pie_spec.
  rewrite filter_none; [done|].
  intros r Hr. by apply (proj1 (Forall_forall _ _) Hnone).
Qed.

Lemma plot_china_electricity_production_pie_raises_witness :
  plot_china_electricity_production_pie sample_matplotlib sample_table_2021
  = Raise IndexError.
Proof.
  apply plot_china_electricity_production_pie_raises.
  apply (bool_decide_unpack _). vm_compute. exact I.
Defined.

(** X11: when several rows are for China in 2022 only the first of them in
    table order counts: the renderer ends as it does on that row alone, and
    it hands [ax.pie] the row's coal, gas, nuclear, hydro, wind, solar,
    fossil and biofuel columns, in that order. *)
Theorem pie_chart_shows_first_match (mpl : Matplotlib) (before after : DataFrame)
    (r : Row) :
  Forall (λ r', ¬ (country r' = "China" ∧ year r' = 2022)) before →
  country r = "China" → year r = 2022 →
  let sizes := [ coal_electricity r; gas_electricity r; nuclear_electricity r;
                 hydro_electricity r; wind_electricity r; solar_electricity r;
                 fossil_electricity r; biofuel_electricity r ] in
  plot_china_electricity_production_pie mpl (before ++ r :: after)
  = plot_china_electricity_production_pie mpl [r] ∧
  plot_china_electricity_production_pie mpl [r]
  = match pie_error mpl sizes with
    | Some e => Raise e
    | None => plt_savefig mpl (pie_figure sizes)
    end.
Proof.
  intros Hbefore Hc Hy. cbv zeta.
  rewrite !plot_china_electricity_production_pie_spec, filter_app, filter_none.
  - by rewrite !filter_cons_True.
  - intros r' Hr'. by apply (proj1 (Forall_forall _ _) Hbefore).
Qed.

Lemma pie_chart_shows_first_match_witness :
  let sizes := [ Num (60 # 1); Num (5 # 1); Num (5 # 1); Num (15 # 1);
                 Num (inject_Z 22); Num (5 # 1); Num (3 # 1); Num (2 # 1) ] in
  plot_china_electricity_production_pie sample_matplotlib
    ([sample_row "India" 2022; sample_row "China" 2021]
     ++ sample_row "China" 2022 :: [sample_row "China" 2022; sample_row "Japan" 2022])
  = plot_china_electricity_production_pie sample_matplotlib
      [sample_row "China" 2022] ∧
  plot_china_electricity_production_pie sample_matplotlib [sample_row "China" 2022]
  = match pie_error sample_matplotlib sizes with
    | Some e => Raise e
    | None => plt_savefig sample_matplotlib (pie_figure sizes)
    end.
Proof.
  apply (pie_chart_shows_first_match sample_matplotlib
           [sample_row "India" 2022; sample_row "China" 2021]
           [sample_row "China" 2022; sample_row "Japan" 2022]
           (sample_row "China" 2022)).
  - apply (bool_decide_unpack _). vm_compute. exact I.
  - reflexivity.
  - reflexivity.
Defined.

(** X12: drawn from a filtered table, the pie chart is the one of the
    unfiltered table when the filter lets China and 2022 through, and an
    [IndexError] otherwise. *)
Theorem pie_chart_after_filter (mpl : Matplotlib) (df : DataFrame)
    (sc : list string) (s e : Z) :
  plot_china_electricity_production_pie mpl (filter_data df sc s e)
  = if decide ("China" ∈ sc ∧ s ≤ 2022 ≤ e)
    then plot_china_electricity_production_pie mpl df
    else Raise IndexError.
Proof.
  rewrite !plot_china_electricity_production_pie_spec, filter_data_filter.
  rewrite list_filter_filter. destruct (decide _) as [[Hc Hy]|Hno].
  - erewrite list_filter_iff; [reflexivity|].
    intros r. unfold keeps. split; [tauto|].
    intros [Hr Hyr]. rewrite Hr, Hyr. tauto.
  - rewrite filter_none; [done|].
    intros r _ [[Hr Hyr] [Hc Hy]]. apply Hno. by rewrite <- Hr, <- Hyr.
Qed.

(** ** The whole run *)

(** X13: a run completes only if the table has a row for China in 2022
    and the number of rows for 2022 of the five selected countries is 5
    or 1 (it broadcasts with the five countries). *)
Theorem main_outcome (env : Environment) (mpl : Matplotlib) (df : DataFrame)
    (out : Outputs) :
  outcome (main env mpl df) = Ok out →
  let n := length (filter (λ r, country r ∈ selected_countries ∧ year r = 2022) df) in
  let china := filter (λ r, country r = "China" ∧ year r = 2022) df in
  china ≠ [] ∧ broadcastable 5 n = true ∧ (n = 5 ∨ n = 1)%nat.
Proof.
  intros Hmain. cbv zeta.
  destruct (main_completes env mpl df out Hmain)
    as (_ & _ & Hmix & _ & Hpie & _).
  apply plot_china_electricity_production_pie_Ok in Hpie as (r & rest & Hchina & _).
  apply plot_electricity_generation_mix_Ok in Hmix as (_ & Hb & _).
  rewrite filter_2022_of_selected in Hb.
  change (length selected_countries) with 5%nat in Hb.
  split; [by rewrite Hchina|]. split; [exact Hb|].
  unfold broadcastable in Hb.
  apply orb_true_iff in Hb as [Hb|Hb]; [apply orb_true_iff in Hb as [Hb|Hb]|].
  - apply Nat.eqb_eq in Hb. by left.
  - done.
  - apply Nat.eqb_eq in Hb. by right.
Qed.

Lemma main_outcome_witness :
  ∃ out,
    outcome (main sample_env sample_matplotlib sample_table) = Ok out ∧
    let n := length (filter (λ r, country r ∈ selected_countries ∧ year r = 2022)
                       sample_table) in
    let china := filter (λ r, country r = "China" ∧ year r = 2022) sample_table in
    china ≠ [] ∧ broadcastable 5 n = true ∧ (n = 5 ∨ n = 1)%nat.
Proof.
  eexists. split; [vm_compute; reflexivity|].
  eapply (main_outcome sample_env sample_matplotlib sample_table).
  vm_compute. reflexivity.
Defined.

(** ** The compositor: drawing order and geometry *)

Lemma length_textbox_ops env cw y ps :
  length (textbox_ops env cw y ps) = (2 * length ps)%nat.
Proof.
  revert y. induction ps as [|p ps IH]; intros y; [done|]. cbn. rewrite IH. lia.
Qed.

(** X14: everything drawn on the canvas, in order: the heading, the
    sub-heading 50 below the heading's height, the wind, pie, carbon and mix
    charts, and then for each paragraph, in list order, its white box
    followed by its wrapped text; 6 + 2n operations for n paragraphs. *)
Theorem create_combined_image_drawing_order (env : Environment)
    (df_selected : DataFrame) (sc : list string) (df_energy : DataFrame)
    (ps : list string) :
  ∃ out,
    create_combined_image env df_selected sc df_energy ps = Ok out ∧
    let cv := saved_canvas out in
    let hw := (textsize env heading (truetype "arial.ttf" 50)).1 in
    let dw := (textsize env description (truetype "arial.ttf" 30)).1 in
    let top := heading_height env + 150 in
    cv_ops cv
    = [ DrawText ((2400 - hw) `div` 2, 30) heading (truetype "arial.ttf" 50) "#333333";
        DrawText ((2400 - dw) `div` 2, heading_height env + 50) description
          (truetype "arial.ttf" 30) "#555555";
        Paste (rounded_chart "Wind_energy_plot.png") (50, top + 20)
          (rounded_chart "Wind_energy_plot.png");
        Paste (rounded_chart "china_electricity_production_pie.png")
          (50, top + 600 + 20 + 20)
          (rounded_chart "china_electricity_production_pie.png");
        Paste (rounded_chart "carbon_intensity_plot.png") (1550, top + 20)
          (rounded_chart "carbon_intensity_plot.png");
        Paste (rounded_chart "electricity_generation_mix_plot.png")
          (1550, top + 600 + 20 + 20)
          (rounded_chart "electricity_generation_mix_plot.png") ]
      ++ textbox_ops env 2400 top ps ∧
    length (cv_ops cv) = (6 + 2 * length ps)%nat.
Proof.
  destruct (create_combined_image_canvas env df_selected sc df_energy ps)
    as (out & Hout & _ & _ & _ & _ & _ & _ & Hops).
  exists out. split; [exact Hout|]. cbv zeta. rewrite Hops.
  split; [reflexivity|].
  rewrite length_app, length_textbox_ops. cbn [length]. lia.
Qed.

(** The boxes and texts of the paragraph loop, read off its closed form. *)
Lemma textbox_ops_lookup env cw y ps i p :
  ps !! i = Some p →
  let y_i := y + total_height env (take i ps) + 60 * Z.of_nat i in
  omap op_rectangle (textbox_ops env cw y ps) !! i
  = Some (((cw - 650) `div` 2, y_i),
          ((cw - 650) `div` 2 + 650, y_i + (wrapped_text_height env p + 40))) ∧
  omap op_multiline_text (textbox_ops env cw y ps) !! i
  = Some (((cw - 650) `div` 2 + 20, y_i + 20), textwrap_fill env p 41).
Proof.
  revert y i. induction ps as [|p0 ps IH]; intros y i Hi; [done|].
  destruct i as [|i].
  - cbn in Hi. injection Hi as ->. cbn.
    replace (y + 0 + 60 * Z.of_nat 0) with y by lia. done.
  - cbn in Hi.
    destruct (IH (y + (wrapped_text_height env p0 + 40 + 20)) i Hi) as [Hr Ht].
    cbv zeta in Hr, Ht.
    replace (y + total_height env (take (S i) (p0 :: ps)) + 60 * Z.of_nat (S i))
      with (y + (wrapped_text_height env p0 + 40 + 20)
            + total_height env (take i ps) + 60 * Z.of_nat i)
      by (cbn [take total_height foldr]; fold (total_height env (take i ps)); lia).
    split; [exact Hr|exact Ht].
Qed.

(** X15: paragraph [i] gets a white box from x = 875 to x = 1525 whose top
    is the heading height plus 150, plus the wrapped heights of the
    paragraphs before it, plus 60 for each of them; the box is 40 higher
    than the wrapped text, which is drawn 20 to the right of and 20 below
    the box's corner, so the text has a margin of 20 above and below. *)
Theorem textbox_geometry (env : Environment) (df_selected : DataFrame)
    (sc : list string) (df_energy : DataFrame) (ps : list string)
    (i : nat) (p : string) :
  ps !! i = Some p →
  ∃ out,
    create_combined_image env df_selected sc df_energy ps = Ok out ∧
    let cv := saved_canvas out in
    let y_i := heading_height env + 150 + total_height env (take i ps)
               + 60 * Z.of_nat i in
    rectangles cv !! i
    = Some ((875, y_i), (1525, y_i + (wrapped_text_height env p + 40))) ∧
    multiline_texts cv !! i = Some ((895, y_i + 20), textwrap_fill env p 41).
Proof.
  intros Hi.
  destruct (create_combined_image_canvas env df_selected sc df_energy ps)
    as (out & Hout & _ & _ & _ & _ & _ & _ & Hops).
  exists out. split; [exact Hout|]. cbv zeta. unfold rectangles, multiline_texts.
  rewrite Hops, !omap_app. cbn [omap op_rectangle op_multiline_text app].
  exact (textbox_ops_lookup env 2400 (heading_height env + 150) ps i p Hi).
Qed.

Lemma textbox_geometry_witness :
  ∃ out,
    create_combined_image sample_env sample_table selected_countries sample_table
      paragraphs = Ok out ∧
    let cv := saved_canvas out in
    rectangles cv !! 2%nat = Some ((875, 380), (1525, 380 + (30 + 40))) ∧
    multiline_texts cv !! 2%nat
    = Some ((895, 380 + 20),
            "Global Impact Dynamics: The global impact of China and India in electricity generation brings both praise and challenges, as pollution accompanies their significant roles. This insight is discerned from the Green House Gas Emission vs Carbon and fossil electricity production graph.").
Proof.
  exact (textbox_geometry sample_env sample_table selected_countries sample_table
           paragraphs 2%nat _ eq_refl).
Defined.

Lemma rectangles_textbox_ops_columns env cw y ps :
  Forall (λ '(p0, p1), p0.1 = (cw - 650) `div` 2 ∧ p1.1 = (cw - 650) `div` 2 + 650)
    (omap op_rectangle (textbox_ops env cw y ps)).
Proof.
  revert y. induction ps as [|p ps IH]; intros y; cbn; [constructor|].
  constructor; [done|]. apply IH.
Qed.

(** X16: horizontally everything lies on the canvas and no text box touches
    a chart: the charts span x from 50 to 850 and from 1550 to 2350, the
    boxes from 875 to 1525, on a canvas 2400 wide. *)
Theorem horizontal_layout (env : Environment) (df_selected : DataFrame)
    (sc : list string) (df_energy : DataFrame) (ps : list string) :
  ∃ out,
    create_combined_image env df_selected sc df_energy ps = Ok out ∧
    let cv := saved_canvas out in
    Forall (λ '(im, box, _), 0 ≤ box.1 ∧ box.1 + (img_size im).1 ≤ cv_width cv)
      (pastes cv) ∧
    Forall (λ '(p0, p1), 0 ≤ p0.1 ∧ p0.1 < p1.1 ∧ p1.1 ≤ cv_width cv)
      (rectangles cv) ∧
    Forall (λ '(p0, p1),
              Forall (λ '(im, box, _),
                        box.1 + (img_size im).1 < p0.1 ∨ p1.1 < box.1) (pastes cv))
      (rectangles cv).
Proof.
  destruct (create_combined_image_canvas env df_selected sc df_energy ps)
    as (out & Hout & Hw & _ & _ & _ & Hp & _ & Hops).
  exists out. split; [exact Hout|]. cbv zeta.
  unfold rectangles. rewrite Hp, Hw, Hops, omap_app.
  cbn [omap op_rectangle app].
  pose proof (rectangles_textbox_ops_columns env 2400 (heading_height env + 150) ps)
    as Hcols.
  change ((2400 - 650) `div` 2) with 875 in Hcols.
  split; [|split].
  - repeat constructor; cbn; lia.
  - eapply Forall_impl; [exact Hcols|]. intros [p0 p1] [-> ->]. lia.
  - eapply Forall_impl; [exact Hcols|]. intros [p0 p1] [-> ->].
    repeat constructor; cbn; lia.
Qed.

(** X17: the four charts lie on the canvas vertically exactly when the
    measured heading height is between -170 and 110: the lower charts end
    at the heading height plus 1390 on a canvas 1500 high, and nothing
    checks it. *)
Theorem charts_fit_vertically (env : Environment) (df_selected : DataFrame)
    (sc : list string) (df_energy : DataFrame) (ps : list string) :
  ∃ out,
    create_combined_image env df_selected sc df_energy ps = Ok out ∧
    let cv := saved_canvas out in
    (Forall (λ '(im, box, _), 0 ≤ box.2 ∧ box.2 + (img_size im).2 ≤ cv_height cv)
       (pastes cv) ↔
     -170 ≤ heading_height env ≤ 110).
Proof.
  destruct (create_combined_image_canvas env df_selected sc df_energy ps)
    as (out & Hout & _ & Hh & _ & _ & Hp & _).
  exists out. split; [exact Hout|]. cbv zeta.
  rewrite Hp, Hh. rewrite !Forall_cons, Forall_nil. cbn. lia.
Qed.

Lemma texts_textbox_ops env cw y ps :
  omap op_text (textbox_ops env cw y ps) = [].
Proof.
  revert y. induction ps as [|p ps IH]; intros y; [done|]. cbn. apply IH.
Qed.

(** X18: the heading and the sub-heading are centred on the canvas to the
    pixel: each starts at half of what its measured width leaves of the
    2400, rounded down, so its left margin is the right one or one less;
    the heading sits at y = 30 and the sub-heading at the heading's height
    plus 50. *)
Theorem headings_centred (env : Environment) (df_selected : DataFrame)
    (sc : list string) (df_energy : DataFrame) (ps : list string) :
  ∃ out,
    create_combined_image env df_selected sc df_energy ps = Ok out ∧
    let cv := saved_canvas out in
    let hw := (textsize env heading (truetype "arial.ttf" 50)).1 in
    let dw := (textsize env description (truetype "arial.ttf" 30)).1 in
    ∃ hx dx,
      texts cv
      = [ ((hx, 30), heading); ((dx, heading_height env + 50), description) ] ∧
      0 ≤ (cv_width cv - (hx + hw)) - hx ≤ 1 ∧
      0 ≤ (cv_width cv - (dx + dw)) - dx ≤ 1.
Proof.
  destruct (create_combined_image_canvas env df_selected sc df_energy ps)
    as (out & Hout & Hw & _ & _ & _ & _ & _ & Hops).
  exists out. split; [exact Hout|]. cbv zeta.
  unfold texts. rewrite Hw, Hops, omap_app.
  rewrite texts_textbox_ops. cbn [omap op_text app].
  eexists _, _. split; [reflexivity|].
  split.
  - pose proof (Z.div_mod (2400 - (textsize env heading (truetype "arial.ttf" 50)).1) 2).
    pose proof (Z.mod_pos_bound
                  (2400 - (textsize env heading (truetype "arial.ttf" 50)).1) 2).
    lia.
  - pose proof (Z.div_mod
                  (2400 - (textsize env description (truetype "arial.ttf" 30)).1) 2).
    pose proof (Z.mod_pos_bound
                  (2400 - (textsize env description (truetype "arial.ttf" 30)).1) 2).
    lia.
Qed.

Lemma total_height_nonneg env ps :
  Forall (λ p, 0 ≤ wrapped_text_height env p) ps → 0 ≤ total_height env ps.
Proof.
  induction 1 as [|p ps Hp _ IH]; cbn; [done|].
  fold (total_height env ps). lia.
Qed.

Lemma textbox_ops_bottoms env cw y ps B :
  ps ≠ [] → Forall (λ p, 0 ≤ wrapped_text_height env p) ps →
  Forall (λ '(p0, p1), p1.2 ≤ B) (omap op_rectangle (textbox_ops env cw y ps)) ↔
  y + total_height env ps + 60 * Z.of_nat (length ps) - 20 ≤ B.
Proof.
  intros Hne Hpos. revert y.
  induction Hpos as [|p ps Hp Hps IH]; intros y; [done|].
  change (omap op_rectangle (textbox_ops env cw y (p :: ps)))
    with (((cw - 650) `div` 2, y,
           ((cw - 650) `div` 2 + 650, y + (wrapped_text_height env p + 40)))
          :: omap op_rectangle
               (textbox_ops env cw (y + (wrapped_text_height env p + 40 + 20)) ps)).
  rewrite Forall_cons.
  change (total_height env (p :: ps))
    with (wrapped_text_height env p + total_height env ps).
  rewrite length_cons. cbn [snd].
  destruct ps as [|q ps].
  - change (total_height env []) with 0. cbn [textbox_ops omap list_omap length].
    rewrite Forall_nil. lia.
  - rewrite (IH ltac:(done)).
    pose proof (total_height_nonneg env (q :: ps) Hps).
    rewrite !length_cons in *. lia.
Qed.

(** X19: with at least one paragraph and no negative text height, every
    text box ends on the canvas exactly when the heading height plus 150,
    the wrapped heights of all paragraphs and 60 per paragraph, less the
    last gap of 20, stay within the canvas height of 1500; the loop itself
    never checks this. *)
Theorem textboxes_fit_vertically (env : Environment) (df_selected : DataFrame)
    (sc : list string) (df_energy : DataFrame) (ps : list string) :
  ps ≠ [] → Forall (λ p, 0 ≤ wrapped_text_height env p) ps →
  ∃ out,
    create_combined_image env df_selected sc df_energy ps = Ok out ∧
    let cv := saved_canvas out in
    (Forall (λ '(p0, p1), p1.2 ≤ cv_height cv) (rectangles cv) ↔
     heading_height env + 150 + total_height env ps + 60 * Z.of_nat (length ps) - 20
     ≤ 1500).
Proof.
  intros Hne Hpos.
  destruct (create_combined_image_canvas env df_selected sc df_energy ps)
    as (out & Hout & _ & Hh & _ & _ & _ & _ & Hops).
  exists out. split; [exact Hout|]. cbv zeta.
  unfold rectangles. rewrite Hh, Hops, omap_app.
  cbn [omap op_rectangle app].
  by apply textbox_ops_bottoms.
Qed.

Lemma textboxes_fit_vertically_witness :
  ∃ out,
    create_combined_image sample_env sample_table selected_countries sample_table
      paragraphs = Ok out ∧
    let cv := saved_canvas out in
    (Forall (λ '(p0, p1), p1.2 ≤ cv_height cv) (rectangles cv) ↔
     50 + 150 + total_height sample_env paragraphs + 60 * 5 - 20 ≤ 1500).
Proof.
  apply (textboxes_fit_vertically sample_env sample_table selected_countries
           sample_table paragraphs).
  - discriminate.
  - apply (bool_decide_unpack _). vm_compute. exact I.
Defined.

(** ** filter_data and the charts together *)

(** X20: a narrower filter selects a subsequence of what a wider one
    selects: fewer countries and a year range inside the other one never
    add or reorder rows. *)
Theorem filter_data_monotone (df : DataFrame) (sc sc' : list string)
    (s e s' e' : Z) :
  sc ⊆ sc' → s' ≤ s → e ≤ e' →
  filter_data df sc s e `sublist_of` filter_data df sc' s' e'.
Proof.
  intros Hsc Hs He. rewrite !filter_data_filter.
  rewrite <- (list_filter_filter_l (keeps sc s e) (keeps sc' s' e') df).
  - apply sublist_filter.
  - intros r [Hc Hy]. split; [by apply Hsc|lia].
Qed.

Lemma filter_data_monotone_witness :
  filter_data sample_table ["China"; "India"] 2015 2020
  `sublist_of` filter_data sample_table selected_countries 2012 2022.
Proof.
  apply filter_data_monotone; [|lia|lia].
  intros c Hc. apply (bool_decide_unpack _).
  repeat (apply elem_of_cons in Hc as [->|Hc]); [by vm_compute|by vm_compute|].
  by apply elem_of_nil in Hc.
Defined.

(** X21: when the country list has no repetition and the wind chart is
    produced from the filtered table, its lines share out the rows of that
    table: the numbers of points of the lines add up to the number of
    filtered rows. *)
Theorem line_chart_plots_every_filtered_row (mpl : Matplotlib) (df : DataFrame)
    (sc : list string) (s e : Z) (wind : Figure) :
  NoDup sc →
  plot_wind_energy_trend mpl (filter_data df sc s e) sc = Ok wind →
  sum_list_with (λ a, from_option length 0%nat (line_xs a)) (artists wind)
  = length (filter_data df sc s e).
Proof.
  intros Hsc. rewrite plot_wind_energy_trend_outcome. intros ->%plt_savefig_Ok.
  cbn [artists wind_figure]. unfold country_lines.
  set (d := filter_data df sc s e).
  transitivity (sum_list_with (λ c, length (filter (λ r, country r = c) d)) sc).
  - generalize d. intros d'. generalize sc. intros l.
    induction l as [|c l IH]; [done|].
    cbn. unfold getcol at 1. by rewrite length_map, IH.
  - rewrite <- (length_filter_by_key country sc d) by done.
    f_equal. apply filter_id. apply Forall_forall. intros r Hr.
    unfold d in Hr. rewrite filter_data_filter in Hr.
    by apply list_elem_of_filter in Hr as [[Hc _] _].
Qed.

Lemma line_chart_plots_every_filtered_row_witness :
  ∃ wind,
    plot_wind_energy_trend sample_matplotlib
      (filter_data sample_table selected_countries 2012 2022) selected_countries
    = Ok wind ∧
    sum_list_with (λ a, from_option length 0%nat (line_xs a)) (artists wind)
    = length (filter_data sample_table selected_countries 2012 2022).
Proof.
  eexists. split; [vm_compute; reflexivity|].
  apply (line_chart_plots_every_filtered_row sample_matplotlib sample_table
           selected_countries 2012 2022).
  - apply (bool_decide_unpack _). vm_compute. exact I.
  - vm_compute. reflexivity.
Defined.
